(** * PayOS client: a shallow embedding of the signing and gateway code

    The development follows the layout of the repository:
    - [Crypto]   [crypto.createHmac('sha256', key).update(s).digest('hex')];
    - [Js]       the fragment of the JavaScript value model the code relies on
                 (truthiness, [ToString], equality, own-property order);
    - utils/     [sortObjectByKey], [objectToQueryString], [createSignature];
    - constants.ts, error.ts, and the [PayOS] class of index.ts, whose
      asynchronous operations are programs that issue at most one request.

    Strings are sequences of 8-bit code units; on ASCII text (all the field
    names and every constant of the repository) this is both the UTF-16 view
    used by [sort] and the UTF-8 view used by the HMAC. *)

From Stdlib Require Import ZArith List String Ascii Bool Lia.
From Stdlib Require Import Permutation Sorted.
Import ListNotations.
Set Warnings "-register-all".
Open Scope string_scope.
Open Scope Z_scope.

(* ================================================================== *)
(** * HMAC-SHA256, hex digest *)

Module Crypto.
Local Open Scope list_scope.

Definition w32 (x : Z) : Z := Z.land x 0xffffffff.
Definition add32 (x y : Z) : Z := w32 (x + y).
Definition rotr (n x : Z) : Z := Z.lor (Z.shiftr x n) (w32 (Z.shiftl x (32 - n))).
Definition not32 (x : Z) : Z := Z.lxor x 0xffffffff.

Definition Ch (x y z : Z) : Z := Z.lxor (Z.land x y) (Z.land (not32 x) z).
Definition Maj (x y z : Z) : Z :=
  Z.lxor (Z.lxor (Z.land x y) (Z.land x z)) (Z.land y z).
Definition Sigma0 (x : Z) : Z := Z.lxor (Z.lxor (rotr 2 x) (rotr 13 x)) (rotr 22 x).
Definition Sigma1 (x : Z) : Z := Z.lxor (Z.lxor (rotr 6 x) (rotr 11 x)) (rotr 25 x).
Definition sigma0 (x : Z) : Z := Z.lxor (Z.lxor (rotr 7 x) (rotr 18 x)) (Z.shiftr x 3).
Definition sigma1 (x : Z) : Z := Z.lxor (Z.lxor (rotr 17 x) (rotr 19 x)) (Z.shiftr x 10).

(** The constants are those of FIPS 180-4, by their definition: the first
    thirty-two bits of the fractional parts of the cube roots (round
    constants) and of the square roots (initial hash value) of the first
    primes. *)
Definition is_prime (n : Z) : bool :=
  forallb (fun d => negb (n mod Z.of_nat d =? 0)) (seq 2 (Z.to_nat n - 2)).

Definition primes (n : nat) : list Z :=
  firstn n (filter is_prime (map Z.of_nat (seq 2 400))).

(** The integer cube root, one bit at a time from bit [bits - 1] down. *)
Fixpoint cube_root (bits : nat) (n r : Z) : Z :=
  match bits with
  | O => r
  | S b =>
      let r' := r + 2 ^ Z.of_nat b in
      cube_root b n (if r' * r' * r' <=? n then r' else r)
  end.

Definition K256 : list Z :=
  Eval vm_compute in map (fun p => w32 (cube_root 40 (p * 2 ^ 96) 0)) (primes 64).

Definition H256 : list Z :=
  Eval vm_compute in map (fun p => w32 (Z.sqrt (p * 2 ^ 64))) (primes 8).

(** The eight working variables / the chaining value. *)
Record state := State { sa : Z; sb : Z; sc : Z; sd : Z; se : Z; sf : Z; sg : Z; sh : Z }.

Definition H0 : state :=
  State (nth 0 H256 0) (nth 1 H256 0) (nth 2 H256 0) (nth 3 H256 0)
        (nth 4 H256 0) (nth 5 H256 0) (nth 6 H256 0) (nth 7 H256 0).

(** Message schedule: the last sixteen words are kept, oldest first. *)
Definition next_word (win : list Z) : Z :=
  add32 (add32 (sigma1 (nth 14 win 0)) (nth 9 win 0))
        (add32 (sigma0 (nth 1 win 0)) (nth 0 win 0)).

Fixpoint schedule (n : nat) (win : list Z) : list Z :=
  match n with
  | O => []
  | S n' => let w := next_word win in w :: schedule n' (tl win ++ [w])
  end.

Definition round (s : state) (kw : Z * Z) : state :=
  let '(k, w) := kw in
  let t1 := add32 (add32 (add32 (sh s) (Sigma1 (se s))) (Ch (se s) (sf s) (sg s)))
                  (add32 k w) in
  let t2 := add32 (Sigma0 (sa s)) (Maj (sa s) (sb s) (sc s)) in
  State (add32 t1 t2) (sa s) (sb s) (sc s) (add32 (sd s) t1) (se s) (sf s) (sg s).

Definition compress (h : state) (block : list Z) : state :=
  let w := block ++ schedule 48 block in
  let s := fold_left round (combine K256 w) h in
  State (add32 (sa h) (sa s)) (add32 (sb h) (sb s)) (add32 (sc h) (sc s))
        (add32 (sd h) (sd s)) (add32 (se h) (se s)) (add32 (sf h) (sf s))
        (add32 (sg h) (sg s)) (add32 (sh h) (sh s)).

(** Big-endian packing. *)
Fixpoint be_bytes (n : nat) (x : Z) : list Z :=
  match n with
  | O => []
  | S n' => Z.land (Z.shiftr x (8 * Z.of_nat n')) 0xff :: be_bytes n' x
  end.

Fixpoint words_of_bytes (fuel : nat) (bs : list Z) : list Z :=
  match fuel, bs with
  | S fuel', b0 :: b1 :: b2 :: b3 :: rest =>
      (Z.shiftl b0 24 + Z.shiftl b1 16 + Z.shiftl b2 8 + b3) :: words_of_bytes fuel' rest
  | _, _ => []
  end.

Definition pad (msg : list Z) : list Z :=
  let len := Z.of_nat (List.length msg) in
  let zeros := Z.to_nat ((55 - len) mod 64) in
  msg ++ [0x80] ++ repeat 0 zeros ++ be_bytes 8 (8 * len).

Fixpoint blocks (fuel : nat) (ws : list Z) (h : state) : state :=
  match fuel, ws with
  | S fuel', _ :: _ => blocks fuel' (skipn 16 ws) (compress h (firstn 16 ws))
  | _, _ => h
  end.

Definition state_bytes (s : state) : list Z :=
  be_bytes 4 (sa s) ++ be_bytes 4 (sb s) ++ be_bytes 4 (sc s) ++ be_bytes 4 (sd s) ++
  be_bytes 4 (se s) ++ be_bytes 4 (sf s) ++ be_bytes 4 (sg s) ++ be_bytes 4 (sh s).

Definition sha256 (msg : list Z) : list Z :=
  let p := pad msg in
  let ws := words_of_bytes (List.length p) p in
  state_bytes (blocks (List.length ws) ws H0).

Definition block_size : nat := 64.

Definition hmac_sha256 (key msg : list Z) : list Z :=
  let k0 := if (Nat.ltb block_size (List.length key)) then sha256 key else key in
  let k := k0 ++ repeat 0 (block_size - List.length k0) in
  let ipad := map (fun b => Z.lxor b 0x36) k in
  let opad := map (fun b => Z.lxor b 0x5c) k in
  sha256 (opad ++ sha256 (ipad ++ msg)).

Definition bytes_of_string (s : string) : list Z :=
  map (fun c => Z.of_N (N_of_ascii c)) (list_ascii_of_string s).

Definition hex_digit (n : Z) : ascii :=
  nth (Z.to_nat n) (list_ascii_of_string "0123456789abcdef") "f"%char.

Fixpoint hex (bs : list Z) : string :=
  match bs with
  | [] => EmptyString
  | b :: rest => String (hex_digit (Z.shiftr b 4)) (String (hex_digit (Z.land b 15)) (hex rest))
  end.

(** [crypto.createHmac('sha256', key).update(data).digest('hex')] *)
Definition createHmac_sha256_hex (key data : string) : string :=
  hex (hmac_sha256 (bytes_of_string key) (bytes_of_string data)).

End Crypto.

(* ================================================================== *)
(** * The JavaScript values the client handles *)

Module Js.

(** ** Numbers

    A finite number is given by a decimal literal [m * 10^-e]; [Dec m 0] is
    the integer [m].  [number_to_string] follows Number::toString of the
    standard on the digits of [m], so the rendering is the one of the engine
    whenever the literal is the shortest one that reads back as the same
    double (every integer below 2^53 and every literal of at most fifteen
    significant digits). *)
Inductive number :=
| NaN
| Infinity (negative : bool)
| Dec (m : Z) (e : nat).

Definition of_Z (z : Z) : number := Dec z 0.

Definition number_truthy (n : number) : bool :=
  match n with
  | NaN => false
  | Infinity _ => true
  | Dec m _ => negb (m =? 0)
  end.

Definition number_eqb (a b : number) : bool :=
  match a, b with
  | Dec m1 e1, Dec m2 e2 => m1 * 10 ^ Z.of_nat e2 =? m2 * 10 ^ Z.of_nat e1
  | Infinity s1, Infinity s2 => Bool.eqb s1 s2
  | _, _ => false
  end.

(** [Number.isInteger] *)
Definition isInteger (n : number) : bool :=
  match n with
  | Dec m e => m mod 10 ^ Z.of_nat e =? 0
  | _ => false
  end.

(** [n <= 0] *)
Definition number_le0 (n : number) : bool :=
  match n with
  | NaN => false
  | Infinity negative => negative
  | Dec m _ => m <=? 0
  end.

Fixpoint string_of_uint (d : Decimal.uint) : string :=
  match d with
  | Decimal.Nil => ""
  | Decimal.D0 d => String "0" (string_of_uint d)
  | Decimal.D1 d => String "1" (string_of_uint d)
  | Decimal.D2 d => String "2" (string_of_uint d)
  | Decimal.D3 d => String "3" (string_of_uint d)
  | Decimal.D4 d => String "4" (string_of_uint d)
  | Decimal.D5 d => String "5" (string_of_uint d)
  | Decimal.D6 d => String "6" (string_of_uint d)
  | Decimal.D7 d => String "7" (string_of_uint d)
  | Decimal.D8 d => String "8" (string_of_uint d)
  | Decimal.D9 d => String "9" (string_of_uint d)
  end.

Definition decimal (n : N) : string := string_of_uint (N.to_uint n).

Fixpoint zeros (n : nat) : string :=
  match n with O => "" | S n' => String "0" (zeros n') end.

Fixpoint strip_zeros_rev (s : list ascii) : list ascii :=
  match s with
  | "0"%char :: s' => strip_zeros_rev s'
  | _ => s
  end.

(** The digits of a positive literal without its trailing zeros. *)
Definition significant (digits : string) : string :=
  string_of_list_ascii (rev (strip_zeros_rev (rev (list_ascii_of_string digits)))).

(** Number::toString on a positive value [0.s * 10^n], [s] the significant
    digits ([k] of them). *)
Definition render_positive (s : string) (n : Z) : string :=
  let k := Z.of_nat (String.length s) in
  if (k <=? n) && (n <=? 21) then s ++ zeros (Z.to_nat (n - k))
  else if (0 <? n) && (n <=? 21) then
    substring 0 (Z.to_nat n) s ++ "." ++ substring (Z.to_nat n) (Z.to_nat (k - n)) s
  else if (-6 <? n) && (n <=? 0) then "0." ++ zeros (Z.to_nat (- n)) ++ s
  else
    let mantissa :=
      if k =? 1 then s else substring 0 1 s ++ "." ++ substring 1 (Z.to_nat (k - 1)) s in
    mantissa ++ "e" ++ (if 0 <=? n - 1 then "+" else "-") ++ decimal (Z.to_N (Z.abs (n - 1))).

Definition number_to_string (x : number) : string :=
  match x with
  | NaN => "NaN"
  | Infinity false => "Infinity"
  | Infinity true => "-Infinity"
  | Dec m e =>
      if m =? 0 then "0"
      else
        let digits := decimal (Z.to_N (Z.abs m)) in
        let body := render_positive (significant digits)
                      (Z.of_nat (String.length digits) - Z.of_nat e) in
        if m <? 0 then "-" ++ body else body
  end.

(** ** Values *)

Inductive error_class := ClsError | ClsTypeError | ClsSyntaxError | ClsPayOSError.

(** [PayOSError] does not set [name], so it prints as its base class. *)
Definition class_name (c : error_class) : string :=
  match c with
  | ClsError | ClsPayOSError => "Error"
  | ClsTypeError => "TypeError"
  | ClsSyntaxError => "SyntaxError"
  end.

(** [VObj props] lists the own properties in enumeration order.  [VErr] is an
    error instance: its class, its [message] and its other own properties. *)
Inductive value :=
| VUndefined
| VNull
| VBool (b : bool)
| VNum (n : number)
| VStr (s : string)
| VArr (elems : list value)
| VObj (props : list (string * value))
| VErr (cls : error_class) (message : string) (props : list (string * value)).

Definition is_nullish (v : value) : bool :=
  match v with VUndefined | VNull => true | _ => false end.

(** ToBoolean *)
Definition truthy (v : value) : bool :=
  match v with
  | VUndefined | VNull => false
  | VBool b => b
  | VNum n => number_truthy n
  | VStr s => negb (s =? "")%string
  | VArr _ | VObj _ | VErr _ _ _ => true
  end.

(** ToString, as applied by template literals, [String(x)] and [new Error(x)]. *)
Fixpoint to_string (v : value) : string :=
  match v with
  | VUndefined => "undefined"
  | VNull => "null"
  | VBool true => "true"
  | VBool false => "false"
  | VNum n => number_to_string n
  | VStr s => s
  | VArr elems =>
      String.concat ","
        (map (fun x => match x with
                       | VUndefined | VNull => ""
                       | _ => to_string x
                       end) elems)
  | VObj _ => "[object Object]"
  | VErr cls message _ =>
      if (message =? "")%string then class_name cls
      else class_name cls ++ ": " ++ message
  end.

(** [a === b].  In every comparison of the source one operand is a primitive
    (a string literal, a number literal, or the [string | null] result of the
    signer), so object identity is never what decides it. *)
Definition strict_eq (a b : value) : bool :=
  match a, b with
  | VUndefined, VUndefined => true
  | VNull, VNull => true
  | VBool x, VBool y => Bool.eqb x y
  | VNum x, VNum y => number_eqb x y
  | VStr x, VStr y => (x =? y)%string
  | _, _ => false
  end.

(** [a == "00"] for the literal right operand of [index.ts]: a string is
    compared as a string, a number or a boolean with ToNumber("00") = 0, an
    object through its primitive (string) form; null and undefined are only
    equal to each other. *)
Definition loose_eq_00 (a : value) : bool :=
  match a with
  | VUndefined | VNull => false
  | VBool b => negb b
  | VNum n => number_eqb n (of_Z 0)
  | VStr s => (s =? "00")%string
  | VArr _ | VObj _ | VErr _ _ _ => (to_string a =? "00")%string
  end.

(** [a || b] *)
Definition or_else (a b : value) : value := if truthy a then a else b.

(** ** Own properties *)

Definition is_digit (c : ascii) : bool :=
  let n := N_of_ascii c in ((48 <=? n) && (n <=? 57))%N.

Fixpoint parse_digits (acc : N) (s : string) : option N :=
  match s with
  | EmptyString => Some acc
  | String c s' =>
      if is_digit c then parse_digits (10 * acc + (N_of_ascii c - 48))%N s' else None
  end.

(** An array index is the canonical decimal form of an integer below 2^32 - 1. *)
Definition array_index (k : string) : option N :=
  match k with
  | EmptyString => None
  | String "0" EmptyString => Some 0%N
  | String "0" _ => None
  | _ => match parse_digits 0 k with
         | Some n => if (n <? 4294967295)%N then Some n else None
         | None => None
         end
  end.

Fixpoint lookup (k : string) (props : list (string * value)) : option value :=
  match props with
  | [] => None
  | (k', v) :: rest => if (k =? k')%string then Some v else lookup k rest
  end.

Definition get_own (k : string) (props : list (string * value)) : value :=
  match lookup k props with Some v => v | None => VUndefined end.

(** [v[k]] / [v.k] on a value that is neither null nor undefined (on those the
    engine raises a TypeError: the source guards its reads, and the three
    places where it does not are modelled where they occur).  Only own
    properties are looked up: no name read by the source is a method name. *)
Definition get (v : value) (k : string) : value :=
  match v with
  | VObj props => get_own k props
  | VErr _ message props =>
      if (k =? "message")%string then VStr message else get_own k props
  | VArr elems =>
      if (k =? "length")%string then VNum (of_Z (Z.of_nat (List.length elems)))
      else match array_index k with
           | Some i => nth (N.to_nat i) elems VUndefined
           | None => VUndefined
           end
  | VStr s =>
      if (k =? "length")%string then VNum (of_Z (Z.of_nat (String.length s)))
      else match array_index k with
           | Some i => match String.get (N.to_nat i) s with
                       | Some c => VStr (String c EmptyString)
                       | None => VUndefined
                       end
           | None => VUndefined
           end
  | _ => VUndefined
  end.

(** [v?.k] *)
Definition get_opt (v : value) (k : string) : value :=
  if is_nullish v then VUndefined else get v k.

Definition indices (n : nat) : list string :=
  map (fun i => decimal (N.of_nat i)) (seq 0 n).

(** [Object.keys(v)] *)
Definition keys (v : value) : list string :=
  match v with
  | VObj props => map fst props
  | VArr elems => indices (List.length elems)
  | VStr s => indices (String.length s)
  | _ => []
  end.

(** *** Creating and writing own properties

    Own string keys enumerate with the array indices first, in ascending
    numeric order, then the other keys in the order of their creation. *)

Fixpoint replace (k : string) (v : value) (props : list (string * value))
  : list (string * value) :=
  match props with
  | [] => []
  | (k', v') :: rest =>
      if (k =? k')%string then (k, v) :: rest else (k', v') :: replace k v rest
  end.

Fixpoint insert_index (i : N) (k : string) (v : value) (props : list (string * value))
  : list (string * value) :=
  match props with
  | [] => [(k, v)]
  | (k', v') :: rest =>
      match array_index k' with
      | Some j => if (j <? i)%N then (k', v') :: insert_index i k v rest
                  else (k, v) :: props
      | None => (k, v) :: props
      end
  end.

(** CreateDataProperty, as used by object literals and spread. *)
Definition define (props : list (string * value)) (k : string) (v : value)
  : list (string * value) :=
  match lookup k props with
  | Some _ => replace k v props
  | None =>
      match array_index k with
      | Some i => insert_index i k v props
      | None => (props ++ [(k, v)])%list
      end
  end.

(** [acc[k] = v] on an ordinary object: as [define], except that the key
    [__proto__] reaches the accessor of [Object.prototype] and creates no
    own property. *)
Definition assign (props : list (string * value)) (k : string) (v : value)
  : list (string * value) :=
  if (k =? "__proto__")%string then props else define props k v.

(** [Array.prototype.sort()] without a comparator, on strings: ascending by
    code units.  The standard fixes the result (a stable sorted permutation),
    not the algorithm. *)
Fixpoint insert_sorted (k : string) (l : list string) : list string :=
  match l with
  | [] => [k]
  | x :: rest => if (k <? x)%string then k :: l else x :: insert_sorted k rest
  end.

Fixpoint sort (l : list string) : list string :=
  match l with
  | [] => []
  | x :: rest => insert_sorted x (sort rest)
  end.

End Js.

Import Js.

(* ================================================================== *)
(** * utils/ *)

(** utils/sortObjectByKey.ts *)
Definition sortObjectByKey (object : value) : value :=
  VObj (fold_left (fun acc key => assign acc key (get object key))
                  (sort (keys object)) []).

(** utils/objectToQueryString.ts *)
Definition objectToQueryString (object : value) : string :=
  String.concat "&"
    (map (fun key => key ++ "=" ++ to_string (get object key)) (keys object)).

(** utils/createSignature.ts; [None] is the [null] of [string | null]. *)
Definition createSignatureFromObject (data : value) (key : string) : option string :=
  if negb (truthy data) || (String.length key =? 0)%nat then None
  else
    let sortedData := sortObjectByKey data in
    let queryString := objectToQueryString sortedData in
    let dataToSignature := Crypto.createHmac_sha256_hex key queryString in
    Some dataToSignature.

(** The template literal of [createSignatureOfPaymentRequest]. *)
Definition paymentRequestQueryString (data : value) : string :=
  let amount := get data "amount" in
  let cancelUrl := get data "cancelUrl" in
  let description := get data "description" in
  let orderCode := get data "orderCode" in
  let returnUrl := get data "returnUrl" in
  "amount=" ++ to_string amount ++ "&cancelUrl=" ++ to_string cancelUrl
  ++ "&description=" ++ to_string description ++ "&orderCode=" ++ to_string orderCode
  ++ "&returnUrl=" ++ to_string returnUrl.

Definition createSignatureOfPaymentRequest (data : value) (key : string) : option string :=
  if negb (truthy data) || (String.length key =? 0)%nat then None
  else
    let queryString := paymentRequestQueryString data in
    let dataToSignature := Crypto.createHmac_sha256_hex key queryString in
    Some dataToSignature.

(** A [string | null] as a value. *)
Definition of_signature (s : option string) : value :=
  match s with Some d => VStr d | None => VNull end.

(* ================================================================== *)
(** * constants.ts *)

Module ERROR_MESSAGE.
Definition NO_SIGNATURE := "No signature.".
Definition NO_DATA := "No data.".
Definition INVALID_SIGNATURE := "Invalid signature.".
Definition DATA_NOT_INTEGRITY :=
  "The data is unreliable because the signature of the response does not match the signature of the data.".
Definition WEBHOOK_URL_INVALID := "Webhook URL invalid.".
Definition UNAUTHORIZED := "Unauthorized.".
Definition INTERNAL_SERVER_ERROR := "Internal Server Error.".
Definition INVALID_PARAMETER := "Invalid Parameter.".
End ERROR_MESSAGE.

Module ERROR_CODE.
Definition INTERNAL_SERVER_ERROR := "20".
Definition UNAUTHORIZED := "401".
End ERROR_CODE.

Definition PAYOS_API_URL := "https://api-merchant.payos.vn".

(* ================================================================== *)
(** * error.ts and the built-in errors *)

(** The [message] an [Error] constructor stores for its argument. *)
Definition error_message (x : value) : string :=
  match x with VUndefined => "" | _ => to_string x end.

(** [new Error(x)] *)
Definition new_Error (x : value) : value := VErr ClsError (error_message x) [].

(** [new PayOSError({ code, message })]: [super(message); this.code = code] *)
Definition new_PayOSError (code message : value) : value :=
  VErr ClsPayOSError (error_message message) [("code", code)].

(** The TypeError of the engine for a property read on null or undefined; its
    text differs between engines. *)
Definition new_TypeError (what : string) : value :=
  VErr ClsTypeError (what ++ " is not an object") [].

(* ================================================================== *)
(** * Completions and the single suspension point of an operation *)

Inductive completion (A : Type) : Type :=
| Return (a : A)
| Throw (e : value).
Arguments Return {A} a.
Arguments Throw {A} e.

Definition bind {A B} (c : completion A) (k : A -> completion B) : completion B :=
  match c with
  | Return a => k a
  | Throw e => Throw e
  end.

Notation "x <- c ;; k" := (bind c (fun x => k))
  (at level 61, c at next level, right associativity).
Notation "' p <- c ;; k" := (bind c (fun x => match x with p => k end))
  (at level 61, p pattern, c at next level, right associativity).

(** [try { body } catch (error) { handler }] *)
Definition try_catch {A} (body : completion A) (handler : value -> completion A)
  : completion A :=
  match body with
  | Return a => Return a
  | Throw error => handler error
  end.

(** What [await response.json()] settles to. *)
Inductive json_outcome :=
| JsonValue (v : value)
| JsonRejects (reason : value).

(** What [await fetch(url, init)] settles to.  The promise of [fetch] rejects
    only when no response was obtained; a response resolves it whatever its
    HTTP status. *)
Inductive fetch_outcome :=
| FetchRejects (reason : value)
| FetchResolves (status : Z) (body : json_outcome).

(** [body] is the value given to [JSON.stringify] ([VUndefined] for no body). *)
Record request := Request {
  url : string;
  method : string;
  body : value;
  headers : list (string * string)
}.

(** An operation either settles without touching the network or issues one
    request and continues with what the transport answers. *)
Inductive prog (A : Type) : Type :=
| Done (c : completion A)
| Fetch (req : request) (k : fetch_outcome -> completion A).
Arguments Done {A} c.
Arguments Fetch {A} req k.

Definition run {A} (p : prog A) (transport : request -> fetch_outcome) : completion A :=
  match p with
  | Done c => c
  | Fetch req k => k (transport req)
  end.

Definition requests {A} (p : prog A) : list request :=
  match p with
  | Done _ => []
  | Fetch req _ => [req]
  end.

(** [await response.json()] after [await fetch(...)] *)
Definition response_json (o : fetch_outcome) : completion value :=
  match o with
  | FetchRejects reason => Throw reason
  | FetchResolves _ (JsonRejects reason) => Throw reason
  | FetchResolves _ (JsonValue v) => Return v
  end.

(** [const { code, data, signature, desc } = v] *)
Definition destructure (v : value) : completion (value * value * value * value) :=
  if is_nullish v then Throw (new_TypeError (to_string v))
  else Return (get v "code", get v "data", get v "signature", get v "desc").

(* ================================================================== *)
(** * index.ts *)

Record PayOS := {
  clientId : string;
  apiKey : string;
  checksumKey : string
}.

(** [(error as any)?.response?.data || (error as any)?.response || error] *)
Definition errorData_of (error : value) : value :=
  or_else (or_else (get_opt (get_opt error "response") "data") (get_opt error "response"))
          error.

(** The [catch] clause shared by the three payment-link operations. *)
Definition rethrow {A} (error : value) : completion A :=
  let errorData := errorData_of error in
  Throw (new_Error (or_else (get_opt errorData "message") errorData)).

Definition requiredFields : list string :=
  ["amount"; "cancelUrl"; "description"; "orderCode"; "returnUrl"].

(** [{ ...paymentData }] *)
Definition spread (v : value) : list (string * value) :=
  fold_left (fun acc key => define acc key (get v key)) (keys v) [].

Definition createPaymentLink (this : PayOS) (paymentData : value) : prog value :=
  if negb (truthy paymentData)
     || negb (truthy (get paymentData "amount"))
     || negb (truthy (get paymentData "cancelUrl"))
     || negb (truthy (get paymentData "description"))
     || negb (truthy (get paymentData "orderCode"))
     || negb (truthy (get paymentData "returnUrl"))
  then
    if is_nullish paymentData then Done (Throw (new_TypeError (to_string paymentData)))
    else
      let keysError := filter (fun key => negb (truthy (get paymentData key))) requiredFields in
      Done (Throw (new_Error
        (VStr ("The following fields are required: " ++ String.concat ", " keysError))))
  else
    let url := PAYOS_API_URL ++ "/v2/payment-requests" in
    let signature := createSignatureOfPaymentRequest paymentData (checksumKey this) in
    Fetch
      (Request url "POST"
         (VObj (define (spread paymentData) "signature" (of_signature signature)))
         [("content-type", "application/json");
          ("X-client-id", clientId this);
          ("X-api-key", apiKey this)])
      (fun response =>
         try_catch
           (json <- response_json response ;;
            '(code, data, resSignature, desc) <- destructure json ;;
            if strict_eq code (VStr "00") then
              let paymentLinkResSignature :=
                createSignatureFromObject data (checksumKey this) in
              if negb (strict_eq (of_signature paymentLinkResSignature) resSignature)
              then Throw (new_Error (VStr ERROR_MESSAGE.DATA_NOT_INTEGRITY))
              else if truthy data then Return data
              else Throw (new_PayOSError code desc)
            else Throw (new_PayOSError code desc))
           rethrow).

(** The guard on [orderId] of [getPaymentLinkInformation] and
    [cancelPaymentLink]. *)
Definition invalid_orderId (orderId : value) : bool :=
  negb (truthy orderId)
  || match orderId with
     | VNum n => negb (isInteger n) || number_le0 n
     | _ => false
     end
  || match orderId with
     | VStr s => (String.length s =? 0)%nat
     | _ => false
     end.

Definition getPaymentLinkInformation (this : PayOS) (orderId : value) : prog value :=
  if invalid_orderId orderId
  then Done (Throw (new_Error (VStr ERROR_MESSAGE.INVALID_PARAMETER)))
  else
    let url := PAYOS_API_URL ++ "/v2/payment-requests/" ++ to_string orderId in
    Fetch
      (Request url "GET" VUndefined
         [("x-client-id", clientId this);
          ("x-api-key", apiKey this);
          ("Content-Type", "application/json")])
      (fun response =>
         try_catch
           (json <- response_json response ;;
            '(code, data, signature, desc) <- destructure json ;;
            if loose_eq_00 code then
              let paymentLinkInfoResSignature :=
                createSignatureFromObject data (checksumKey this) in
              if negb (strict_eq (of_signature paymentLinkInfoResSignature) signature)
              then Throw (new_Error (VStr ERROR_MESSAGE.DATA_NOT_INTEGRITY))
              else if truthy data then Return data
              else Throw (new_PayOSError code desc)
            else Throw (new_PayOSError code desc))
           rethrow).

(** [webhookUrl] is a string by its type. *)
Definition confirmWebhook (this : PayOS) (webhookUrl : string) : prog value :=
  if negb (truthy (VStr webhookUrl)) || (String.length webhookUrl =? 0)%nat
  then Done (Throw (new_Error (VStr ERROR_MESSAGE.INVALID_PARAMETER)))
  else
    let url := PAYOS_API_URL ++ "/confirm-webhook" in
    Fetch
      (Request url "POST" (VObj [("webhookUrl", VStr webhookUrl)])
         [("x-client-id", clientId this);
          ("x-api-key", apiKey this);
          ("Content-Type", "application/json")])
      (fun response =>
         try_catch
           (match response with
            | FetchRejects reason => Throw reason
            | FetchResolves _ _ => Return (VStr webhookUrl)
            end)
           (fun error =>
              let errorData := errorData_of error in
              if strict_eq (get_opt errorData "status") (VNum (of_Z 400)) then
                Throw (new_PayOSError (VStr ERROR_CODE.INTERNAL_SERVER_ERROR)
                                      (VStr ERROR_MESSAGE.WEBHOOK_URL_INVALID))
              else if strict_eq (get_opt errorData "status") (VNum (of_Z 401)) then
                Throw (new_PayOSError (VStr ERROR_CODE.UNAUTHORIZED)
                                      (VStr ERROR_MESSAGE.UNAUTHORIZED))
              else if prefix "5" (to_string (get_opt errorData "status")) then
                Throw (new_PayOSError (VStr ERROR_CODE.INTERNAL_SERVER_ERROR)
                                      (VStr ERROR_MESSAGE.INTERNAL_SERVER_ERROR))
              else Throw (new_Error (or_else (get_opt errorData "message") errorData)))).

Definition cancelPaymentLink (this : PayOS) (orderId : value) (cancellationReason : value)
  : prog value :=
  if invalid_orderId orderId
  then Done (Throw (new_Error (VStr ERROR_MESSAGE.INVALID_PARAMETER)))
  else
    let url := PAYOS_API_URL ++ "/v2/payment-requests/" ++ to_string orderId ++ "/cancel" in
    Fetch
      (Request url "POST"
         (if truthy cancellationReason
          then VObj [("cancellationReason", cancellationReason)]
          else VUndefined)
         [("x-client-id", clientId this);
          ("x-api-key", apiKey this);
          ("Content-Type", "application/json")])
      (fun response =>
         try_catch
           (json <- response_json response ;;
            '(code, data, signature, desc) <- destructure json ;;
            if loose_eq_00 code then
              let paymentLinkInfoResSignature :=
                createSignatureFromObject data (checksumKey this) in
              if negb (strict_eq (of_signature paymentLinkInfoResSignature) signature)
              then Throw (new_Error (VStr ERROR_MESSAGE.DATA_NOT_INTEGRITY))
              else if truthy data then Return data
              else Throw (new_PayOSError code desc)
            else Throw (new_PayOSError code desc))
           rethrow).

Definition verifyWebhookData (this : PayOS) (webhookBody : value) : completion value :=
  if is_nullish webhookBody then Throw (new_TypeError (to_string webhookBody))
  else
    let data := get webhookBody "data" in
    let signature := get webhookBody "signature" in
    if negb (truthy data) then Throw (new_Error (VStr ERROR_MESSAGE.NO_DATA))
    else
      let signData := createSignatureFromObject data (checksumKey this) in
      if negb (strict_eq (of_signature signData) signature)
      then Throw (new_Error (VStr ERROR_MESSAGE.DATA_NOT_INTEGRITY))
      else Return data.

(* ================================================================== *)
(** * Sample inputs *)

Module Sample.

Definition client : PayOS := Build_PayOS "client-id" "api-key" "secret".
Definition keyless : PayOS := Build_PayOS "client-id" "api-key" "".

Definition paymentData : value :=
  VObj [("amount", VNum (of_Z 1000)); ("description", VStr "test");
        ("orderCode", VNum (of_Z 123)); ("returnUrl", VStr "https://x");
        ("cancelUrl", VStr "https://y")].

(** The same order with the keys in another order and two more fields. *)
Definition paymentData' : value :=
  VObj [("buyerName", VStr "An"); ("returnUrl", VStr "https://x");
        ("cancelUrl", VStr "https://y"); ("orderCode", VNum (of_Z 123));
        ("expiredAt", VNum (of_Z 1700000000)); ("description", VStr "test");
        ("amount", VNum (of_Z 1000))].

Definition noOrderCode : list (string * value) :=
  [("amount", VNum (of_Z 1000)); ("description", VStr "test");
   ("returnUrl", VStr "https://x"); ("cancelUrl", VStr "https://y")].

Definition data : value := VObj [("b", VStr "x"); ("a", VNum (of_Z 1))].
Definition data_signature : string :=
  "fac2d571e5ef90b93b8b84c8ba64873355a624d175ebe9602292273e6dd9ee71".

Definition envelope (code : string) (signature : value) : value :=
  VObj [("code", VStr code); ("desc", VStr "Order exists"); ("data", data);
        ("signature", signature)].

Definition answers (resp : value) : request -> fetch_outcome :=
  fun _ => FetchResolves 200 (JsonValue resp).

(** A mapping with two array-index keys, and the same pairs created in
    another order (an object lists its index keys first whatever the order
    of creation). *)
Definition mapping : list (string * value) :=
  [("9", VStr "n"); ("10", VStr "t"); ("b", VStr "x"); ("a", VNum (of_Z 1))].
Definition shuffled : list (string * value) :=
  [("9", VStr "n"); ("10", VStr "t"); ("a", VNum (of_Z 1)); ("b", VStr "x")].

Definition webhook (signature : value) : list (string * value) :=
  [("code", VStr "00"); ("desc", VStr "success"); ("data", data);
   ("signature", signature)].

End Sample.

(* ================================================================== *)
(** * Vocabulary of the statements *)

Definition is_hex_char (c : ascii) : bool :=
  existsb (Ascii.eqb c) (list_ascii_of_string "0123456789abcdef").

(** A hex digest of SHA-256: sixty-four lowercase hexadecimal characters. *)
Definition hex_digest (d : string) : Prop :=
  String.length d = 64%nat
  /\ Forall (fun c => is_hex_char c = true) (list_ascii_of_string d).

(** The [try] block that [createPaymentLink], [getPaymentLinkInformation] and
    [cancelPaymentLink] run on the transport's answer, with its [catch]; the
    three differ in the test of [code] only ([===] in the first, [==] in the
    other two). *)
Definition checked (code_ok : value -> bool) (key : string) (response : fetch_outcome)
  : completion value :=
  try_catch
    (json <- response_json response ;;
     '(code, data, signature, desc) <- destructure json ;;
     if code_ok code then
       let recomputed := createSignatureFromObject data key in
       if negb (strict_eq (of_signature recomputed) signature)
       then Throw (new_Error (VStr ERROR_MESSAGE.DATA_NOT_INTEGRITY))
       else if truthy data then Return data
       else Throw (new_PayOSError code desc)
     else Throw (new_PayOSError code desc))
    rethrow.

(** The message of the plain [Error] into which the [catch] clause turns a
    [PayOSError] built from a response's [desc]. *)
Definition relayed_message (desc : value) : string :=
  if (error_message desc =? "")%string then "Error" else error_message desc.

(** Properties of an operation [p] of client [this] whose request is answered
    by a parsed response.

    [release_rule code_ok]: the operation returns exactly when the code
    passes the test [code_ok], the response's signature is the recomputed
    one and the data is truthy, and what it returns is the response's data;
    a signature that differs from the recomputed one makes the call raise,
    whatever the code. *)
Definition release_rule (code_ok : value -> bool) (this : PayOS) (p : prog value)
  : Prop :=
  forall transport req status resp,
    requests p = [req] ->
    transport req = FetchResolves status (JsonValue resp) ->
    let recomputed :=
      of_signature (createSignatureFromObject (get resp "data") (checksumKey this)) in
    (forall d, run p transport = Return d <->
       code_ok (get resp "code") = true
       /\ get resp "signature" = recomputed
       /\ truthy (get resp "data") = true
       /\ d = get resp "data")
    /\ (get resp "signature" <> recomputed -> exists e, run p transport = Throw e).

(** [relays_gateway_failure]: for a code other than "00" the call raises a
    plain [Error] whose message is the response's [desc]; the [PayOSError]
    with the response's code does not leave the operation. *)
Definition relays_gateway_failure (p : prog value) : Prop :=
  forall transport req status resp code,
    requests p = [req] ->
    transport req = FetchResolves status (JsonValue resp) ->
    get resp "code" = VStr code ->
    code <> "00" ->
    run p transport = Throw (VErr ClsError (relayed_message (get resp "desc")) []).

(** [relays_only_desc m]: an error with message [m] raised on a parsed
    response has that message from the response's [desc]. *)
Definition relays_only_desc (m : string) (p : prog value) : Prop :=
  forall transport req status resp e,
    requests p = [req] ->
    transport req = FetchResolves status (JsonValue resp) ->
    run p transport = Throw e ->
    get e "message" = VStr m ->
    relayed_message (get resp "desc") = m.

(** [validation_never_raises m]: the operation does not settle before its
    request with an error of message [m]. *)
Definition validation_never_raises (m : string) (p : prog value) : Prop :=
  forall e, p = Done (Throw e) -> get e "message" <> VStr m.

(** [relays_only_failure m]: an error with message [m] raised when [fetch]
    or [response.json()] rejects has that message from the rejection. *)
Definition relays_only_failure (m : string) (p : prog value) : Prop :=
  forall transport req reason e,
    requests p = [req] ->
    (transport req = FetchRejects reason
     \/ exists status, transport req = FetchResolves status (JsonRejects reason)) ->
    run p transport = Throw e ->
    get e "message" = VStr m ->
    error_message (or_else (get_opt (errorData_of reason) "message")
                           (errorData_of reason)) = m.

(** [never_synthesised m]: no operation of the client makes up an error of
    message [m]: [verifyWebhookData] never raises it, no operation raises it
    before its request, and after the request it can only be a text that the
    transport supplied and the operation hands on: the [desc] of a parsed
    response, or the message of a rejection. *)
Definition never_synthesised (m : string) : Prop :=
  forall (this : PayOS) (paymentData orderId cancellationReason webhookBody : value)
         (webhookUrl : string),
    (forall e, verifyWebhookData this webhookBody = Throw e -> get e "message" <> VStr m)
    /\ validation_never_raises m (createPaymentLink this paymentData)
    /\ validation_never_raises m (getPaymentLinkInformation this orderId)
    /\ validation_never_raises m (cancelPaymentLink this orderId cancellationReason)
    /\ validation_never_raises m (confirmWebhook this webhookUrl)
    /\ relays_only_desc m (createPaymentLink this paymentData)
    /\ relays_only_desc m (getPaymentLinkInformation this orderId)
    /\ relays_only_desc m (cancelPaymentLink this orderId cancellationReason)
    /\ relays_only_desc m (confirmWebhook this webhookUrl)
    /\ relays_only_failure m (createPaymentLink this paymentData)
    /\ relays_only_failure m (getPaymentLinkInformation this orderId)
    /\ relays_only_failure m (cancelPaymentLink this orderId cancellationReason)
    /\ relays_only_failure m (confirmWebhook this webhookUrl).

Definition is_index (k : string) : bool :=
  match array_index k with Some _ => true | None => false end.

(** Ascending numeric order on array indices. *)
Definition index_le (a b : string) : Prop :=
  match array_index a, array_index b with
  | Some i, Some j => (i <= j)%N
  | _, _ => False
  end.

(** Ascending, in the order of the code units. *)
Definition string_lt (a b : string) : Prop := (a <? b)%string = true.

(** [a <= b], as the negation of [b < a]. *)
Definition string_le (a b : string) : Prop := (b <? a)%string = false.

(** The enumeration of own keys on lists of keys: where [define] puts a key
    that the object does not have yet. *)
Fixpoint insert_key (i : N) (k : string) (l : list string) : list string :=
  match l with
  | [] => [k]
  | k' :: rest =>
      match array_index k' with
      | Some j => if (j <? i)%N then k' :: insert_key i k rest else k :: l
      | None => k :: l
      end
  end.

Definition key_step (l : list string) (k : string) : list string :=
  match array_index k with
  | Some i => insert_key i k l
  | None => (l ++ [k])%list
  end.

(** Further properties of an operation [p], on every answer of the
    transport and without an assumption on the type of [code].

    [sound_release]: whatever the transport does, a value comes back only
    from a parsed response; it is that response's [data], it is truthy, and
    the response's [signature] is the signature recomputed from it. *)
Definition sound_release (this : PayOS) (p : prog value) : Prop :=
  forall transport d,
    run p transport = Return d ->
    exists req status resp,
      requests p = [req]
      /\ transport req = FetchResolves status (JsonValue resp)
      /\ d = get resp "data"
      /\ truthy d = true
      /\ get resp "signature"
         = of_signature (createSignatureFromObject d (checksumKey this)).

(** [raises_plain_errors]: once the request is issued, whatever is raised is
    an instance of [Error] itself, with a message and no other property. *)
Definition raises_plain_errors (p : prog value) : Prop :=
  forall transport req e,
    requests p = [req] ->
    run p transport = Throw e ->
    exists message, e = VErr ClsError message [].

(** [keeps_failure_message]: a failure of [fetch] or of [response.json()]
    that is an error instance with a message, and without a [response]
    property, is raised again as an [Error] with the same message. *)
Definition keeps_failure_message (p : prog value) : Prop :=
  forall transport req cls message props,
    requests p = [req] ->
    message <> "" ->
    lookup "response" props = None ->
    (transport req = FetchRejects (VErr cls message props)
     \/ exists status,
          transport req = FetchResolves status (JsonRejects (VErr cls message props))) ->
    run p transport = Throw (VErr ClsError message []).

(** [prefers_response_data]: when the rejection of [fetch] has a truthy
    [response.data], the error raised is made from that value alone. *)
Definition prefers_response_data (p : prog value) : Prop :=
  forall transport req reason,
    requests p = [req] ->
    transport req = FetchRejects reason ->
    let d := get_opt (get_opt reason "response") "data" in
    truthy d = true ->
    run p transport = Throw (new_Error (or_else (get_opt d "message") d)).

(** [settles_success_code]: the three outcomes on a response of code "00". *)
Definition settles_success_code (this : PayOS) (p : prog value) : Prop :=
  forall transport req status resp,
    requests p = [req] ->
    transport req = FetchResolves status (JsonValue resp) ->
    get resp "code" = VStr "00" ->
    let data := get resp "data" in
    let recomputed :=
      of_signature (createSignatureFromObject data (checksumKey this)) in
    (get resp "signature" <> recomputed ->
       run p transport = Throw (VErr ClsError ERROR_MESSAGE.DATA_NOT_INTEGRITY []))
    /\ (get resp "signature" = recomputed -> truthy data = false ->
       run p transport = Throw (VErr ClsError (relayed_message (get resp "desc")) []))
    /\ (get resp "signature" = recomputed -> truthy data = true ->
       run p transport = Return data).

(** An operation either settles with an error before its request or runs
    [checked] on the answer. *)
Definition checked_shape (code_ok : value -> bool) (key : string) (p : prog value) : Prop :=
  (exists e, p = Done (Throw e)) \/ (exists req, p = Fetch req (checked code_ok key)).

(* ================================================================== *)
(** * Basic facts about the value model *)

Lemma strict_eq_of_signature (s : option string) (v : value) :
  strict_eq (of_signature s) v = true <-> v = of_signature s.
Proof.
  destruct s as [d|]; destruct v; simpl; split; intro H;
    try discriminate; try reflexivity.
  - apply String.eqb_eq in H. now subst.
  - injection H as ->. apply String.eqb_refl.
Qed.

Lemma strict_eq_of_signature_false (s : option string) (v : value) :
  strict_eq (of_signature s) v = false <-> v <> of_signature s.
Proof.
  rewrite <- strict_eq_of_signature. now destruct (strict_eq _ _).
Qed.

(* ================================================================== *)
(** * The model on known values *)

(** FIPS 180-4, the one-block message "abc". *)
Example sha256_abc :
  Crypto.hex (Crypto.sha256 (Crypto.bytes_of_string "abc"))
  = "ba7816bf8f01cfea414140de5dae2223b00361a396177a9cb410ff61f20015ad".
Proof. vm_compute. reflexivity. Qed.

Example hmac_sha256_short_key :
  Crypto.createHmac_sha256_hex "key" "The quick brown fox jumps over the lazy dog"
  = "f7bc83f430538424b13298e6aa6fb143ef4d59a14946175997479dbc2d1a3cd8".
Proof. vm_compute. reflexivity. Qed.

(** A key longer than a block is hashed first. *)
Example hmac_sha256_long_key :
  Crypto.createHmac_sha256_hex
    "kkkkkkkkkkkkkkkkkkkkkkkkkkkkkkkkkkkkkkkkkkkkkkkkkkkkkkkkkkkkkkkkkkkkkk" "a=1&b=x"
  = "5a46a2cf95e1197d4915eb40eb113b4cd5da29ff4f43ca07a62c2de37b6c737f".
Proof. vm_compute. reflexivity. Qed.

Example number_to_string_values :
  map number_to_string
    [of_Z 1000; of_Z (-7); Dec 15 1; Dec (-25) 2; Dec 100 2; Dec 1 6; Dec 1 7;
     of_Z (10 ^ 20); of_Z (10 ^ 21); NaN; Infinity true]
  = ["1000"; "-7"; "1.5"; "-0.25"; "1"; "0.000001"; "1e-7";
     "100000000000000000000"; "1e+21"; "NaN"; "-Infinity"].
Proof. vm_compute. reflexivity. Qed.

Example to_string_values :
  map to_string
    [VUndefined; VNull; VBool true; VStr "a b";
     VArr [VNum (of_Z 1); VNull; VArr [VStr "x"; VObj []]];
     VObj [("a", VNull)]; VErr ClsPayOSError "" []; VErr ClsTypeError "fetch failed" []]
  = ["undefined"; "null"; "true"; "a b"; "1,,x,[object Object]"; "[object Object]";
     "Error"; "TypeError: fetch failed"].
Proof. vm_compute. reflexivity. Qed.

(** Own keys: array indices first, in numeric order, whatever the order of
    creation; "01" and 4294967295 are not array indices. *)
Example own_key_order :
  map fst (fold_left (fun acc k => define acc k VNull)
             ["x"; "10"; "9"; "a"; "01"; "0"; "4294967295"; "4294967294"] [])
  = ["0"; "9"; "10"; "4294967294"; "x"; "a"; "01"; "4294967295"].
Proof. vm_compute. reflexivity. Qed.

(** The order of the sample payload of the specification, signed. *)
Example payment_request_signature :
  createSignatureOfPaymentRequest Sample.paymentData "secret"
  = Some "779bad487fb1e09e4242bc2e7cade8835a678361c5ade9badad8839b817ba2bb".
Proof. vm_compute. reflexivity. Qed.

Example createPaymentLink_request :
  requests (createPaymentLink Sample.client Sample.paymentData)
  = [Request "https://api-merchant.payos.vn/v2/payment-requests" "POST"
       (VObj [("amount", VNum (of_Z 1000)); ("description", VStr "test");
              ("orderCode", VNum (of_Z 123)); ("returnUrl", VStr "https://x");
              ("cancelUrl", VStr "https://y");
              ("signature",
               VStr "779bad487fb1e09e4242bc2e7cade8835a678361c5ade9badad8839b817ba2bb")])
       [("content-type", "application/json"); ("X-client-id", "client-id");
        ("X-api-key", "api-key")]].
Proof. vm_compute. reflexivity. Qed.

Example createPaymentLink_success :
  run (createPaymentLink Sample.client Sample.paymentData)
      (Sample.answers (Sample.envelope "00" (VStr Sample.data_signature)))
  = Return Sample.data.
Proof. vm_compute. reflexivity. Qed.

Example createPaymentLink_tampered :
  run (createPaymentLink Sample.client Sample.paymentData)
      (Sample.answers (Sample.envelope "00" (VStr "00")))
  = Throw (VErr ClsError ERROR_MESSAGE.DATA_NOT_INTEGRITY []).
Proof. vm_compute. reflexivity. Qed.

(** A transport failure keeps its message. *)
Example getPaymentLinkInformation_network_failure :
  run (getPaymentLinkInformation Sample.client (VNum (of_Z 42)))
      (fun _ => FetchRejects (VErr ClsTypeError "fetch failed" []))
  = Throw (VErr ClsError "fetch failed" []).
Proof. vm_compute. reflexivity. Qed.

(* ================================================================== *)
(** * verifyWebhookData *)

Lemma verifyWebhookData_object (this : PayOS) (webhookBody : list (string * value)) :
  verifyWebhookData this (VObj webhookBody)
  = if truthy (get_own "data" webhookBody) then
      if strict_eq
           (of_signature
              (createSignatureFromObject (get_own "data" webhookBody) (checksumKey this)))
           (get_own "signature" webhookBody)
      then Return (get_own "data" webhookBody)
      else Throw (VErr ClsError ERROR_MESSAGE.DATA_NOT_INTEGRITY [])
    else Throw (VErr ClsError ERROR_MESSAGE.NO_DATA []).
Proof.
  unfold verifyWebhookData. change (is_nullish (VObj webhookBody)) with false.
  cbv iota zeta. change (get (VObj webhookBody)) with (fun k => get_own k webhookBody).
  cbv beta. destruct (truthy _); [|reflexivity].
  now destruct (strict_eq _ _).
Qed.

(** C6.  [verifyWebhookData] is a function of the client and the body alone
    (its model is a [completion], not a [prog]: it issues no request).  For a
    body whose [data] is missing, or falsy, it raises the error "No data.";
    when [data] is present and the recomputed signature differs from the
    body's [signature] it raises the fixed integrity message; when they are
    equal it returns the body's [data] as it is. *)
Theorem verifyWebhookData_outcomes (this : PayOS) (webhookBody : list (string * value)) :
  let data := get (VObj webhookBody) "data" in
  let signature := get (VObj webhookBody) "signature" in
  let signData := of_signature (createSignatureFromObject data (checksumKey this)) in
  (lookup "data" webhookBody = None ->
     verifyWebhookData this (VObj webhookBody) = Throw (VErr ClsError "No data." []))
  /\ (truthy data = false ->
     verifyWebhookData this (VObj webhookBody) = Throw (VErr ClsError "No data." []))
  /\ (truthy data = true -> signature <> signData ->
     verifyWebhookData this (VObj webhookBody) =
       Throw (VErr ClsError
         "The data is unreliable because the signature of the response does not match the signature of the data."
         []))
  /\ (truthy data = true -> signature = signData ->
     verifyWebhookData this (VObj webhookBody) = Return data).
Proof.
  cbv zeta. rewrite verifyWebhookData_object.
  change (get (VObj webhookBody)) with (fun k => get_own k webhookBody). cbv beta.
  repeat split.
  - intro Hmiss. unfold get_own. now rewrite Hmiss.
  - intro Hfalsy. now rewrite Hfalsy.
  - intros Hdata Hsig. rewrite Hdata.
    apply strict_eq_of_signature_false in Hsig. now rewrite Hsig.
  - intros Hdata Hsig. rewrite Hdata.
    apply strict_eq_of_signature in Hsig. now rewrite Hsig.
Qed.

Lemma verifyWebhookData_outcomes_witness :
  verifyWebhookData Sample.client (VObj [("signature", VStr Sample.data_signature)])
    = Throw (VErr ClsError "No data." [])
  /\ verifyWebhookData Sample.client
       (VObj (Sample.webhook (VStr "fac2d571e5ef90b93b8b84c8ba64873355a624d175ebe9602292273e6dd9ee70")))
     = Throw (VErr ClsError
         "The data is unreliable because the signature of the response does not match the signature of the data."
         [])
  /\ verifyWebhookData Sample.client (VObj (Sample.webhook (VStr Sample.data_signature)))
     = Return Sample.data.
Proof.
  split; [| split].
  - apply (proj1 (verifyWebhookData_outcomes Sample.client
                    [("signature", VStr Sample.data_signature)])).
    reflexivity.
  - apply (proj1 (proj2 (proj2 (verifyWebhookData_outcomes Sample.client
        (Sample.webhook (VStr "fac2d571e5ef90b93b8b84c8ba64873355a624d175ebe9602292273e6dd9ee70")))))).
    + reflexivity.
    + vm_compute. discriminate.
  - apply (proj2 (proj2 (proj2 (verifyWebhookData_outcomes Sample.client
        (Sample.webhook (VStr Sample.data_signature)))))).
    + reflexivity.
    + vm_compute. reflexivity.
Defined.

(* ================================================================== *)
(** * Validation before the request *)

(** C8.  [getPaymentLinkInformation] and [cancelPaymentLink] apply the same
    guard to [orderId], and apply it before the request: a number that is not
    an integer, or is zero or negative, and the empty string, are refused with
    the error "Invalid Parameter." and no request is issued; a positive
    integer and a non-empty string pass, and the request for that order is
    issued. *)
Theorem orderId_validation (this : PayOS) (cancellationReason : value) :
  let refused (p : prog value) :=
    p = Done (Throw (VErr ClsError "Invalid Parameter." [])) in
  let proceeds (orderId : value) :=
    requests (getPaymentLinkInformation this orderId) =
      [Request ("https://api-merchant.payos.vn/v2/payment-requests/" ++ to_string orderId)
         "GET" VUndefined
         [("x-client-id", clientId this); ("x-api-key", apiKey this);
          ("Content-Type", "application/json")]]
    /\ requests (cancelPaymentLink this orderId cancellationReason) =
      [Request ("https://api-merchant.payos.vn/v2/payment-requests/" ++ to_string orderId
                ++ "/cancel")
         "POST"
         (if truthy cancellationReason
          then VObj [("cancellationReason", cancellationReason)] else VUndefined)
         [("x-client-id", clientId this); ("x-api-key", apiKey this);
          ("Content-Type", "application/json")]] in
  (forall n : number, isInteger n = false \/ number_le0 n = true ->
     refused (getPaymentLinkInformation this (VNum n))
     /\ refused (cancelPaymentLink this (VNum n) cancellationReason))
  /\ (refused (getPaymentLinkInformation this (VStr ""))
      /\ refused (cancelPaymentLink this (VStr "") cancellationReason))
  /\ (forall n : number, isInteger n = true -> number_le0 n = false ->
        proceeds (VNum n))
  /\ (forall s : string, s <> "" -> proceeds (VStr s)).
Proof.
  cbv zeta. repeat split.
  - unfold getPaymentLinkInformation.
    replace (invalid_orderId (VNum n)) with true; [reflexivity|].
    unfold invalid_orderId. destruct H as [H|H]; rewrite H; simpl;
      now rewrite ?orb_true_r.
  - unfold cancelPaymentLink.
    replace (invalid_orderId (VNum n)) with true; [reflexivity|].
    unfold invalid_orderId. destruct H as [H|H]; rewrite H; simpl;
      now rewrite ?orb_true_r.
  - unfold getPaymentLinkInformation.
    replace (invalid_orderId (VNum n)) with false; [reflexivity|].
    unfold invalid_orderId. rewrite H, H0. destruct n as [| |m e]; try discriminate.
    simpl in *. destruct (Z.eqb_spec m 0) as [->|]; [discriminate|reflexivity].
  - unfold cancelPaymentLink.
    replace (invalid_orderId (VNum n)) with false; [reflexivity|].
    unfold invalid_orderId. rewrite H, H0. destruct n as [| |m e]; try discriminate.
    simpl in *. destruct (Z.eqb_spec m 0) as [->|]; [discriminate|reflexivity].
  - unfold getPaymentLinkInformation.
    replace (invalid_orderId (VStr s)) with false; [reflexivity|].
    destruct s; [congruence|reflexivity].
  - unfold cancelPaymentLink.
    replace (invalid_orderId (VStr s)) with false; [reflexivity|].
    destruct s; [congruence|reflexivity].
Qed.

Lemma orderId_validation_witness :
  (getPaymentLinkInformation Sample.client (VNum (of_Z 0))
     = Done (Throw (VErr ClsError "Invalid Parameter." []))
   /\ cancelPaymentLink Sample.client (VNum (Dec 15 1)) VUndefined
     = Done (Throw (VErr ClsError "Invalid Parameter." [])))
  /\ requests (getPaymentLinkInformation Sample.client (VNum (of_Z 42))) =
       [Request "https://api-merchant.payos.vn/v2/payment-requests/42" "GET" VUndefined
          [("x-client-id", "client-id"); ("x-api-key", "api-key");
           ("Content-Type", "application/json")]]
  /\ requests (cancelPaymentLink Sample.client (VStr "order-7") VUndefined) =
       [Request "https://api-merchant.payos.vn/v2/payment-requests/order-7/cancel" "POST"
          VUndefined
          [("x-client-id", "client-id"); ("x-api-key", "api-key");
           ("Content-Type", "application/json")]].
Proof.
  pose proof (orderId_validation Sample.client VUndefined) as (Hbad & _ & Hnum & Hstr).
  split; [split|split].
  - apply (Hbad (of_Z 0)). right. reflexivity.
  - apply (Hbad (Dec 15 1)). left. reflexivity.
  - apply (Hnum (of_Z 42)); reflexivity.
  - apply (Hstr "order-7"). discriminate.
Defined.

(** C9.  With a payload in which one of the five required fields is absent or
    falsy, [createPaymentLink] settles before any signature is computed or
    request issued, with an error whose message lists the required fields
    that are absent or falsy, those and no others, in the order of
    [requiredFields]. *)
Theorem createPaymentLink_required_fields (this : PayOS) (payload : list (string * value)) :
  let missing := filter (fun key => negb (truthy (get_own key payload))) requiredFields in
  (exists key, In key requiredFields /\ truthy (get_own key payload) = false) ->
  createPaymentLink this (VObj payload) =
    Done (Throw (VErr ClsError
      ("The following fields are required: " ++ String.concat ", " missing) []))
  /\ (forall key, In key missing <->
        In key ["amount"; "cancelUrl"; "description"; "orderCode"; "returnUrl"]
        /\ truthy (get_own key payload) = false).
Proof.
  cbv zeta. intros (key & Hin & Hfalsy). split.
  - unfold createPaymentLink.
    change (get (VObj payload)) with (fun k => get_own k payload). cbv beta.
    change (truthy (VObj payload)) with true.
    change (is_nullish (VObj payload)) with false.
    replace (negb true
             || negb (truthy (get_own "amount" payload))
             || negb (truthy (get_own "cancelUrl" payload))
             || negb (truthy (get_own "description" payload))
             || negb (truthy (get_own "orderCode" payload))
             || negb (truthy (get_own "returnUrl" payload))) with true; [reflexivity|].
    simpl in Hin.
    destruct Hin as [<-|[<-|[<-|[<-|[<-|[]]]]]]; rewrite Hfalsy; simpl;
      now rewrite ?orb_true_r.
  - intro k. rewrite filter_In, negb_true_iff. reflexivity.
Qed.

Lemma createPaymentLink_required_fields_witness :
  createPaymentLink Sample.client (VObj Sample.noOrderCode) =
    Done (Throw (VErr ClsError "The following fields are required: orderCode" [])).
Proof.
  apply (createPaymentLink_required_fields Sample.client Sample.noOrderCode).
  exists "orderCode". split; [simpl; tauto | reflexivity].
Defined.

(* ================================================================== *)
(** * The signers *)

Lemma be_bytes_length (n : nat) (x : Z) : List.length (Crypto.be_bytes n x) = n.
Proof. induction n; simpl; congruence. Qed.

Lemma sha256_length (msg : list Z) : List.length (Crypto.sha256 msg) = 32%nat.
Proof.
  unfold Crypto.sha256, Crypto.state_bytes. cbv zeta.
  now rewrite !length_app, !be_bytes_length.
Qed.

Lemma hex_digit_is_hex (n : Z) : is_hex_char (Crypto.hex_digit n) = true.
Proof.
  unfold Crypto.hex_digit. generalize (Z.to_nat n). intro k.
  do 16 (destruct k as [|k]; [reflexivity|]).
  simpl. now destruct k.
Qed.

Lemma hex_length (bs : list Z) :
  String.length (Crypto.hex bs) = (2 * List.length bs)%nat.
Proof. induction bs; simpl; [reflexivity|]. rewrite IHbs. lia. Qed.

Lemma hex_chars (bs : list Z) :
  Forall (fun c => is_hex_char c = true) (list_ascii_of_string (Crypto.hex bs)).
Proof.
  induction bs; simpl; [constructor|].
  repeat constructor; auto using hex_digit_is_hex.
Qed.

Lemma createHmac_hex_digest (key data : string) :
  hex_digest (Crypto.createHmac_sha256_hex key data).
Proof.
  unfold Crypto.createHmac_sha256_hex, Crypto.hmac_sha256. cbv zeta. split.
  - now rewrite hex_length, sha256_length.
  - apply hex_chars.
Qed.

(** C7.  Each signer returns [null] exactly when the payload is falsy or the
    key has length zero, and a hex digest for every truthy payload and
    non-empty key.  Both are total functions into [string | null]: there is
    no raising path. *)
Theorem signers_null_guard (data : value) (key : string) :
  (createSignatureFromObject data key = None
     <-> truthy data = false \/ String.length key = 0%nat)
  /\ (createSignatureOfPaymentRequest data key = None
     <-> truthy data = false \/ String.length key = 0%nat)
  /\ (truthy data = true -> String.length key <> 0%nat ->
      exists generic paymentRequest,
        createSignatureFromObject data key = Some generic
        /\ createSignatureOfPaymentRequest data key = Some paymentRequest
        /\ hex_digest generic /\ hex_digest paymentRequest).
Proof.
  assert (Hguard : forall d : string,
            (if negb (truthy data) || (String.length key =? 0)%nat
             then None else Some d) = None
            <-> truthy data = false \/ String.length key = 0%nat).
  { intro d. destruct (truthy data);
      destruct (Nat.eqb_spec (String.length key) 0); simpl;
      intuition (congruence || discriminate). }
  unfold createSignatureFromObject, createSignatureOfPaymentRequest. cbv zeta.
  split; [apply Hguard|]. split; [apply Hguard|].
  intros Hdata Hkey. rewrite Hdata.
  destruct (Nat.eqb_spec (String.length key) 0) as [E|E]; [contradiction|].
  simpl. eauto 8 using createHmac_hex_digest.
Qed.

Lemma signers_null_guard_witness :
  exists generic paymentRequest,
    createSignatureFromObject Sample.data "secret" = Some generic
    /\ createSignatureOfPaymentRequest Sample.data "secret" = Some paymentRequest
    /\ hex_digest generic /\ hex_digest paymentRequest.
Proof.
  apply (proj2 (proj2 (signers_null_guard Sample.data "secret"))).
  - reflexivity.
  - discriminate.
Defined.

(** C4.  For an object payload and a non-empty key the payment-request signer
    feeds the HMAC with the five fields in the fixed order amount, cancelUrl,
    description, orderCode, returnUrl, each as [name=value], joined by [&].
    Nothing else of the object takes part: two payloads that agree on the
    five fields, whatever the order of their keys and whatever other keys
    they carry, get the same signature.  (The truthiness of the five fields
    is not needed.) *)
Theorem createSignatureOfPaymentRequest_fixed_order
    (payload : list (string * value)) (key : string) :
  key <> "" ->
  createSignatureOfPaymentRequest (VObj payload) key =
    Some (Crypto.createHmac_sha256_hex key
      ("amount=" ++ to_string (get_own "amount" payload)
       ++ "&cancelUrl=" ++ to_string (get_own "cancelUrl" payload)
       ++ "&description=" ++ to_string (get_own "description" payload)
       ++ "&orderCode=" ++ to_string (get_own "orderCode" payload)
       ++ "&returnUrl=" ++ to_string (get_own "returnUrl" payload)))
  /\ (forall payload' : list (string * value),
        (forall field, In field requiredFields ->
           get_own field payload' = get_own field payload) ->
        createSignatureOfPaymentRequest (VObj payload') key =
        createSignatureOfPaymentRequest (VObj payload) key).
Proof.
  intro Hkey.
  assert (Hlen : (String.length key =? 0)%nat = false).
  { destruct key; [congruence|reflexivity]. }
  unfold createSignatureOfPaymentRequest, paymentRequestQueryString. cbv zeta.
  rewrite Hlen. change (truthy (VObj payload)) with true.
  split; [reflexivity|].
  intros payload' Hsame. change (truthy (VObj payload')) with true.
  change (get (VObj payload')) with (fun k => get_own k payload').
  change (get (VObj payload)) with (fun k => get_own k payload). cbv beta.
  rewrite !Hsame by (simpl; tauto). reflexivity.
Qed.

Lemma createSignatureOfPaymentRequest_fixed_order_witness :
  createSignatureOfPaymentRequest Sample.paymentData "secret" =
    Some (Crypto.createHmac_sha256_hex "secret"
      "amount=1000&cancelUrl=https://y&description=test&orderCode=123&returnUrl=https://x")
  /\ createSignatureOfPaymentRequest Sample.paymentData' "secret" =
     createSignatureOfPaymentRequest Sample.paymentData "secret".
Proof.
  split.
  - refine (proj1 (createSignatureOfPaymentRequest_fixed_order
             [("amount", VNum (of_Z 1000)); ("description", VStr "test");
              ("orderCode", VNum (of_Z 123)); ("returnUrl", VStr "https://x");
              ("cancelUrl", VStr "https://y")] "secret" _)).
    discriminate.
  - refine (proj2 (createSignatureOfPaymentRequest_fixed_order _ "secret" _) _ _).
    + discriminate.
    + intros field Hin. simpl in Hin.
      destruct Hin as [<-|[<-|[<-|[<-|[<-|[]]]]]]; reflexivity.
Defined.

(* ================================================================== *)
(** * The handling of the gateway's answer *)

Lemma rethrow_PayOSError (code desc : value) :
  @rethrow value (new_PayOSError code desc)
  = Throw (VErr ClsError (relayed_message desc) []).
Proof.
  unfold rethrow, errorData_of, new_PayOSError, relayed_message.
  generalize (error_message desc) as m. intro m.
  destruct m as [|c m]; reflexivity.
Qed.

Lemma rethrow_integrity :
  @rethrow value (new_Error (VStr ERROR_MESSAGE.DATA_NOT_INTEGRITY))
  = Throw (VErr ClsError ERROR_MESSAGE.DATA_NOT_INTEGRITY []).
Proof. reflexivity. Qed.

(** The operations as instances of [checked]. *)
Lemma createPaymentLink_checked (this : PayOS) (paymentData : value) (req : request) :
  requests (createPaymentLink this paymentData) = [req] ->
  createPaymentLink this paymentData
  = Fetch req (checked (fun code => strict_eq code (VStr "00")) (checksumKey this)).
Proof.
  unfold createPaymentLink.
  destruct (_ || _).
  - destruct (is_nullish paymentData); discriminate.
  - simpl. intro H. injection H as <-. reflexivity.
Qed.

Lemma getPaymentLinkInformation_checked (this : PayOS) (orderId : value) (req : request) :
  requests (getPaymentLinkInformation this orderId) = [req] ->
  getPaymentLinkInformation this orderId
  = Fetch req (checked loose_eq_00 (checksumKey this)).
Proof.
  unfold getPaymentLinkInformation.
  destruct (invalid_orderId orderId); [discriminate|].
  simpl. intro H. injection H as <-. reflexivity.
Qed.

Lemma cancelPaymentLink_checked (this : PayOS) (orderId reason : value) (req : request) :
  requests (cancelPaymentLink this orderId reason) = [req] ->
  cancelPaymentLink this orderId reason
  = Fetch req (checked loose_eq_00 (checksumKey this)).
Proof.
  unfold cancelPaymentLink.
  destruct (invalid_orderId orderId); [discriminate|].
  simpl. intro H. injection H as <-. reflexivity.
Qed.

(** On a parsed response that is an object, [checked] is a cascade of three
    tests. *)
Lemma checked_response code_ok key status resp :
  is_nullish resp = false ->
  checked code_ok key (FetchResolves status (JsonValue resp))
  = if code_ok (get resp "code") then
      if strict_eq (of_signature (createSignatureFromObject (get resp "data") key))
                   (get resp "signature")
      then if truthy (get resp "data") then Return (get resp "data")
           else Throw (VErr ClsError (relayed_message (get resp "desc")) [])
      else Throw (VErr ClsError ERROR_MESSAGE.DATA_NOT_INTEGRITY [])
    else Throw (VErr ClsError (relayed_message (get resp "desc")) []).
Proof.
  intro Hobj. unfold checked, response_json. cbn [bind].
  unfold destructure. rewrite Hobj. cbn [bind].
  destruct (code_ok (get resp "code")).
  - destruct (strict_eq _ _); cbn [negb].
    + destruct (truthy (get resp "data")); cbn [try_catch]; [reflexivity|].
      apply rethrow_PayOSError.
    + apply rethrow_integrity.
  - cbn [try_catch]. apply rethrow_PayOSError.
Qed.

Lemma checked_nullish code_ok key status resp :
  is_nullish resp = true ->
  checked code_ok key (FetchResolves status (JsonValue resp))
  = Throw (VErr ClsError (to_string resp ++ " is not an object") []).
Proof.
  intro Hnull. destruct resp; try discriminate; reflexivity.
Qed.

Lemma string_code_not_nullish resp code : get resp "code" = VStr code -> is_nullish resp = false.
Proof. destruct resp; simpl; intros; congruence. Qed.

Lemma checked_release_rule (this : PayOS) code_ok (p : prog value) :
  code_ok VUndefined = false ->
  (forall req, requests p = [req] -> p = Fetch req (checked code_ok (checksumKey this))) ->
  release_rule code_ok this p.
Proof.
  intros Hundef Hp transport req status resp Hreq Hanswer recomputed.
  rewrite (Hp req Hreq). cbn [run]. rewrite Hanswer.
  destruct (is_nullish resp) eqn:Hnull.
  - rewrite checked_nullish by assumption.
    assert (Hcode : get resp "code" = VUndefined)
      by (destruct resp; try discriminate; reflexivity).
    split; [|eauto]. intro d. split; [discriminate|].
    intros (Hok & _). congruence.
  - rewrite checked_response by assumption. fold recomputed.
    destruct (code_ok (get resp "code")) eqn:Hok.
    + destruct (strict_eq recomputed (get resp "signature")) eqn:Hsig.
      * apply strict_eq_of_signature in Hsig. split; [|intro; contradiction].
        intro d. destruct (truthy (get resp "data")).
        -- split; [intros [= <-]; auto|]. now intros (_ & _ & _ & ->).
        -- split; [discriminate|]. intros (_ & _ & H & _). discriminate.
      * apply strict_eq_of_signature_false in Hsig. split; [|eauto].
        intro d. split; [discriminate|]. intros (_ & H & _). contradiction.
    + split; [|eauto]. intro d. split; [discriminate|].
      intros (H & _). discriminate.
Qed.

Lemma checked_relays code_ok (key : string) (p : prog value) :
  (forall code, code <> "00" -> code_ok (VStr code) = false) ->
  (forall req, requests p = [req] -> p = Fetch req (checked code_ok key)) ->
  relays_gateway_failure p.
Proof.
  intros Hcode Hp transport req status resp code Hreq Hanswer Hstr Hne.
  rewrite (Hp req Hreq). cbn [run]. rewrite Hanswer.
  rewrite checked_response by (eapply string_code_not_nullish; eauto).
  rewrite Hstr, (Hcode code Hne). reflexivity.
Qed.

Lemma strict_eq_code_00 (code : value) :
  strict_eq code (VStr "00") = true <-> code = VStr "00".
Proof.
  destruct code; simpl; split; intro H; try discriminate.
  - apply String.eqb_eq in H. now subst.
  - injection H as ->. reflexivity.
Qed.

(** C1, as the code has it.  On every parsed response each of the three
    payment-link operations returns exactly when the code passes its test,
    the response's [signature] is the one recomputed by
    [createSignatureFromObject(data, checksumKey)] and the data is present;
    it then returns the response's data; and whenever the two signatures
    differ the call raises, so that no data is released on the strength of
    the HTTP exchange alone.  [createPaymentLink] tests the code with [===],
    which only the string "00" passes.  [getPaymentLinkInformation] and
    [cancelPaymentLink] test it with [==]: among strings only "00" passes,
    but so does the number 0, and on a response of code 0 with a matching
    signature these two return the data. *)
Theorem data_release_rule
    (this : PayOS) (paymentData orderId cancellationReason : value) :
  release_rule (fun code => strict_eq code (VStr "00")) this
               (createPaymentLink this paymentData)
  /\ release_rule loose_eq_00 this (getPaymentLinkInformation this orderId)
  /\ release_rule loose_eq_00 this (cancelPaymentLink this orderId cancellationReason)
  /\ (forall code : value, strict_eq code (VStr "00") = true <-> code = VStr "00")
  /\ (forall code : string, loose_eq_00 (VStr code) = true <-> code = "00")
  /\ loose_eq_00 (VNum (of_Z 0)) = true.
Proof.
  split; [|split; [|split; [|split; [|split]]]].
  - apply (checked_release_rule this (fun code => strict_eq code (VStr "00")));
      [reflexivity|apply createPaymentLink_checked].
  - apply (checked_release_rule this loose_eq_00);
      [reflexivity|apply getPaymentLinkInformation_checked].
  - apply (checked_release_rule this loose_eq_00);
      [reflexivity|apply cancelPaymentLink_checked].
  - apply strict_eq_code_00.
  - intro code. simpl. apply String.eqb_eq.
  - reflexivity.
Qed.

Lemma data_release_rule_witness :
  let resp := VObj [("code", VNum (of_Z 0)); ("desc", VStr "success");
                    ("data", Sample.data);
                    ("signature", VStr Sample.data_signature)] in
  run (getPaymentLinkInformation Sample.client (VNum (of_Z 42))) (Sample.answers resp)
  = Return Sample.data
  /\ run (cancelPaymentLink Sample.client (VNum (of_Z 42)) VUndefined)
         (Sample.answers resp)
     = Return Sample.data.
Proof.
  cbv zeta.
  pose proof (data_release_rule Sample.client VUndefined (VNum (of_Z 42)) VUndefined)
    as (_ & Hget & Hcancel & _).
  split.
  - refine (proj2 (proj1 (Hget (Sample.answers _) _ 200
                            (VObj [("code", VNum (of_Z 0)); ("desc", VStr "success");
                                   ("data", Sample.data);
                                   ("signature", VStr Sample.data_signature)])
                            _ _) Sample.data) _).
    + vm_compute. reflexivity.
    + reflexivity.
    + repeat split; vm_compute; reflexivity.
  - refine (proj2 (proj1 (Hcancel (Sample.answers _) _ 200
                            (VObj [("code", VNum (of_Z 0)); ("desc", VStr "success");
                                   ("data", Sample.data);
                                   ("signature", VStr Sample.data_signature)])
                            _ _) Sample.data) _).
    + vm_compute. reflexivity.
    + reflexivity.
    + repeat split; vm_compute; reflexivity.
Defined.

(** C2, as the code has it.  For a parsed response whose code is a string
    other than "00", each of the three operations raises a plain [Error]
    whose message is the response's [desc] ("Error" when the desc is empty or
    absent): the [PayOSError] built from the response's code and desc is
    thrown inside the [try] block, and the [catch] clause of the same
    operation replaces it, so the code does not reach the caller.
    [confirmWebhook], whose [PayOSError]s are thrown from the [catch] clause,
    does deliver them. *)
Theorem gateway_failure_loses_code
    (this : PayOS) (paymentData orderId cancellationReason : value) :
  relays_gateway_failure (createPaymentLink this paymentData)
  /\ relays_gateway_failure (getPaymentLinkInformation this orderId)
  /\ relays_gateway_failure (cancelPaymentLink this orderId cancellationReason).
Proof.
  split; [|split].
  - apply (checked_relays (fun code => strict_eq code (VStr "00")) (checksumKey this)).
    + intros code Hne. simpl. now apply String.eqb_neq.
    + apply createPaymentLink_checked.
  - apply (checked_relays loose_eq_00 (checksumKey this)).
    + intros code Hne. simpl. now apply String.eqb_neq.
    + apply getPaymentLinkInformation_checked.
  - apply (checked_relays loose_eq_00 (checksumKey this)).
    + intros code Hne. simpl. now apply String.eqb_neq.
    + apply cancelPaymentLink_checked.
Qed.

Lemma gateway_failure_loses_code_witness :
  let resp := Sample.envelope "01" (VStr Sample.data_signature) in
  run (createPaymentLink Sample.client Sample.paymentData) (Sample.answers resp)
    = Throw (VErr ClsError "Order exists" [])
  /\ get (VErr ClsError "Order exists" []) "code" = VUndefined
  /\ new_PayOSError (get resp "code") (get resp "desc")
     = VErr ClsPayOSError "Order exists" [("code", VStr "01")].
Proof.
  cbv zeta. split; [|split; reflexivity].
  refine (proj1 (gateway_failure_loses_code Sample.client Sample.paymentData
                   VUndefined VUndefined)
            (Sample.answers (Sample.envelope "01" (VStr Sample.data_signature)))
            _ 200 (Sample.envelope "01" (VStr Sample.data_signature)) "01" _ _ _ _).
  - vm_compute. reflexivity.
  - reflexivity.
  - reflexivity.
  - discriminate.
Defined.

(* ================================================================== *)
(** * confirmWebhook *)

Lemma status_5xx_prefix (z : Z) :
  500 <= z <= 599 -> prefix "5" (number_to_string (Dec z 0)) = true.
Proof.
  intro Hz.
  assert (Hall : forallb (fun k => prefix "5" (number_to_string (Dec (500 + Z.of_nat k) 0)))
                         (seq 0 100) = true) by (vm_compute; reflexivity).
  rewrite forallb_forall in Hall.
  specialize (Hall (Z.to_nat (z - 500))).
  replace (500 + Z.of_nat (Z.to_nat (z - 500))) with z in Hall by lia.
  apply Hall. apply in_seq. lia.
Qed.

Lemma number_eqb_distinct (n : number) (a b : Z) :
  a <> b -> number_eqb n (of_Z a) = true -> number_eqb n (of_Z b) = false.
Proof.
  intros Hab. destruct n as [| s |m e]; simpl; try discriminate.
  rewrite Z.eqb_eq, Z.eqb_neq. intros H.
  assert (0 < 10 ^ Z.of_nat e) by (apply Z.pow_pos_nonneg; lia). nia.
Qed.

(** C3, as the code has it.  [confirmWebhook] awaits [fetch] and does not look
    at the response: whatever the HTTP status (400, 401 and 5xx included), a
    response makes it return [webhookUrl].  The mapping of 400, 401 and 5xx
    to WEBHOOK_URL_INVALID, UNAUTHORIZED and INTERNAL_SERVER_ERROR sits in
    the [catch] clause, which only a rejected [fetch] reaches, and reads the
    [status] property of the rejection (or of its [response]). *)
Theorem confirmWebhook_http_status (this : PayOS) (webhookUrl : string) :
  webhookUrl <> "" ->
  (forall status body,
     run (confirmWebhook this webhookUrl) (fun _ => FetchResolves status body)
     = Return (VStr webhookUrl))
  /\ (forall reason,
        let status := get_opt (errorData_of reason) "status" in
        let raised := run (confirmWebhook this webhookUrl) (fun _ => FetchRejects reason) in
        (strict_eq status (VNum (of_Z 400)) = true ->
           raised = Throw (VErr ClsPayOSError "Webhook URL invalid." [("code", VStr "20")]))
        /\ (strict_eq status (VNum (of_Z 401)) = true ->
           raised = Throw (VErr ClsPayOSError "Unauthorized." [("code", VStr "401")]))
        /\ (forall z, 500 <= z <= 599 -> status = VNum (of_Z z) ->
           raised = Throw (VErr ClsPayOSError "Internal Server Error."
                             [("code", VStr "20")]))
        /\ exists e, raised = Throw e).
Proof.
  intro Hurl.
  assert (Hguard : negb (truthy (VStr webhookUrl)) || (String.length webhookUrl =? 0)%nat
                   = false).
  { destruct webhookUrl; [congruence|reflexivity]. }
  unfold confirmWebhook. rewrite Hguard. cbn [run try_catch]. cbv zeta.
  split; [reflexivity|].
  intro reason. set (status := get_opt (errorData_of reason) "status").
  repeat split.
  - intro H400. now rewrite H400.
  - intro H401. destruct status as [| | |n| | | |]; try discriminate.
    simpl in H401 |- *.
    rewrite (number_eqb_distinct n 401 400) by (assumption || lia).
    now rewrite H401.
  - intros z Hz ->.
    change (to_string (VNum (of_Z z))) with (number_to_string (Dec z 0)).
    rewrite (status_5xx_prefix z Hz).
    unfold strict_eq, of_Z, number_eqb. change (10 ^ Z.of_nat 0) with 1.
    replace (z * 1 =? 400 * 1) with false by (symmetry; apply Z.eqb_neq; lia).
    replace (z * 1 =? 401 * 1) with false by (symmetry; apply Z.eqb_neq; lia).
    reflexivity.
  - destruct (strict_eq status _); [eauto|].
    destruct (strict_eq status _); [eauto|].
    destruct (prefix _ _); eauto.
Qed.

Lemma confirmWebhook_http_status_witness :
  run (confirmWebhook Sample.client "https://merchant.example/hook")
      (fun _ => FetchResolves 400 (JsonValue (VObj [("code", VStr "20")])))
  = Return (VStr "https://merchant.example/hook").
Proof.
  refine (proj1 (confirmWebhook_http_status Sample.client
                   "https://merchant.example/hook" _) 400 _).
  discriminate.
Defined.

(* ================================================================== *)
(** * Signatures that are absent, and an empty checksum key *)

Section LocalMessages.

(** A message that none of the locally built errors carries. *)
Variable m : string.
Hypothesis not_integrity : m <> ERROR_MESSAGE.DATA_NOT_INTEGRITY.
Hypothesis not_no_data : m <> ERROR_MESSAGE.NO_DATA.
Hypothesis not_invalid_parameter : m <> ERROR_MESSAGE.INVALID_PARAMETER.
Hypothesis not_type_error :
  forall v, is_nullish v = true -> m <> to_string v ++ " is not an object".
Hypothesis not_required : forall x, m <> "The following fields are required: " ++ x.
Hypothesis not_webhook_url_invalid : m <> ERROR_MESSAGE.WEBHOOK_URL_INVALID.
Hypothesis not_unauthorized : m <> ERROR_MESSAGE.UNAUTHORIZED.
Hypothesis not_internal_server_error : m <> ERROR_MESSAGE.INTERNAL_SERVER_ERROR.

Lemma verifyWebhookData_messages (this : PayOS) (webhookBody e : value) :
  verifyWebhookData this webhookBody = Throw e -> get e "message" <> VStr m.
Proof using not_integrity not_no_data not_type_error.
  unfold verifyWebhookData.
  destruct (is_nullish webhookBody) eqn:Hnull.
  { intros [= <-] [= H]. now apply (not_type_error webhookBody). }
  destruct (truthy (get webhookBody "data")); cbn [negb].
  - destruct (strict_eq _ _); cbn [negb]; [discriminate|].
    intros [= <-] [= H]. now apply not_integrity.
  - intros [= <-] [= H]. now apply not_no_data.
Qed.

Lemma validation_createPaymentLink (this : PayOS) (paymentData : value) :
  validation_never_raises m (createPaymentLink this paymentData).
Proof using not_type_error not_required.
  intros e. unfold createPaymentLink.
  destruct (_ || _); [|discriminate].
  destruct (is_nullish paymentData) eqn:Hnull.
  - intros [= <-] [= H]. now apply (not_type_error paymentData).
  - intros [= <-] [= H]. symmetry in H. now apply not_required in H.
Qed.

Lemma validation_orderId (p : value -> prog value) (orderId : value) :
  (invalid_orderId orderId = true ->
     p orderId = Done (Throw (new_Error (VStr ERROR_MESSAGE.INVALID_PARAMETER)))) ->
  (invalid_orderId orderId = false -> exists req k, p orderId = Fetch req k) ->
  validation_never_raises m (p orderId).
Proof using not_invalid_parameter.
  intros Hbad Hgood e. destruct (invalid_orderId orderId).
  - rewrite Hbad by reflexivity. intros [= <-] [= H]. now apply not_invalid_parameter.
  - destruct Hgood as (req & k & ->); [reflexivity|discriminate].
Qed.

Lemma validation_confirmWebhook (this : PayOS) (webhookUrl : string) :
  validation_never_raises m (confirmWebhook this webhookUrl).
Proof using not_invalid_parameter.
  intros e. unfold confirmWebhook. destruct (_ || _); [|discriminate].
  intros [= <-] [= H]. now apply not_invalid_parameter.
Qed.

Lemma checked_relays_only_desc code_ok (key : string) (p : prog value) :
  (forall req, requests p = [req] -> p = Fetch req (checked code_ok key)) ->
  relays_only_desc m p.
Proof using not_integrity not_type_error.
  intros Hp transport req status resp e Hreq Hanswer.
  rewrite (Hp req Hreq). cbn [run]. rewrite Hanswer.
  destruct (is_nullish resp) eqn:Hnull.
  - rewrite checked_nullish by assumption.
    intros [= <-] [= H]. symmetry in H. now apply (not_type_error resp) in H.
  - rewrite checked_response by assumption.
    destruct (code_ok _).
    + destruct (strict_eq _ _).
      * destruct (truthy _); [discriminate|]. now intros [= <-] [= H].
      * intros [= <-] [= H]. symmetry in H. now apply not_integrity in H.
    + now intros [= <-] [= H].
Qed.

Lemma confirmWebhook_relays_only_desc (this : PayOS) (webhookUrl : string) :
  relays_only_desc m (confirmWebhook this webhookUrl).
Proof.
  intros transport req status resp e. unfold confirmWebhook.
  destruct (_ || _); [discriminate|].
  simpl. intros [= <-] ->. discriminate.
Qed.

Lemma checked_relays_only_failure code_ok (key : string) (p : prog value) :
  (forall req, requests p = [req] -> p = Fetch req (checked code_ok key)) ->
  relays_only_failure m p.
Proof.
  intros Hp transport req reason e Hreq Hanswer.
  rewrite (Hp req Hreq). cbn [run].
  assert (Hrun : checked code_ok key (transport req) = rethrow reason).
  { destruct Hanswer as [->|(status & ->)]; reflexivity. }
  rewrite Hrun. unfold rethrow. now intros [= <-] [= H].
Qed.

Lemma confirmWebhook_relays_only_failure (this : PayOS) (webhookUrl : string) :
  relays_only_failure m (confirmWebhook this webhookUrl).
Proof using not_webhook_url_invalid not_unauthorized not_internal_server_error.
  intros transport req reason e. unfold confirmWebhook.
  destruct (_ || _); [discriminate|].
  match goal with |- context [Fetch ?r _] => generalize r; intro R end.
  cbn [requests run]. intros [= <-] Hanswer.
  destruct Hanswer as [->|(status & ->)]; cbn [try_catch]; [|discriminate].
  cbv zeta.
  destruct (strict_eq _ _).
  { intros [= <-] [= H]. symmetry in H. now apply not_webhook_url_invalid in H. }
  destruct (strict_eq _ _).
  { intros [= <-] [= H]. symmetry in H. now apply not_unauthorized in H. }
  destruct (prefix _ _).
  { intros [= <-] [= H]. symmetry in H. now apply not_internal_server_error in H. }
  now intros [= <-] [= H].
Qed.

Lemma never_synthesised_local : never_synthesised m.
Proof using not_integrity not_no_data not_invalid_parameter not_type_error not_required
  not_webhook_url_invalid not_unauthorized not_internal_server_error.
  intros this paymentData orderId cancellationReason webhookBody webhookUrl.
  repeat split.
  - intro e. apply verifyWebhookData_messages.
  - apply validation_createPaymentLink.
  - apply (validation_orderId (getPaymentLinkInformation this)).
    + intro H. unfold getPaymentLinkInformation. now rewrite H.
    + intro H. unfold getPaymentLinkInformation. rewrite H. eauto.
  - apply (validation_orderId (fun o => cancelPaymentLink this o cancellationReason)).
    + intro H. unfold cancelPaymentLink. now rewrite H.
    + intro H. unfold cancelPaymentLink. rewrite H. eauto.
  - apply validation_confirmWebhook.
  - eapply checked_relays_only_desc. apply createPaymentLink_checked.
  - eapply checked_relays_only_desc. apply getPaymentLinkInformation_checked.
  - eapply checked_relays_only_desc. apply cancelPaymentLink_checked.
  - apply confirmWebhook_relays_only_desc.
  - eapply checked_relays_only_failure. apply createPaymentLink_checked.
  - eapply checked_relays_only_failure. apply getPaymentLinkInformation_checked.
  - eapply checked_relays_only_failure. apply cancelPaymentLink_checked.
  - apply confirmWebhook_relays_only_failure.
Qed.

End LocalMessages.


(** C10, as the code has it.  For a webhook body whose [data] is present,
    [verifyWebhookData] raises the integrity error when the body has no
    [signature] (whatever the key), and, when the checksum key is empty (the
    recomputed signature is then [null]), for every [signature] other than
    [null].  A body whose [signature] is [null] is not rejected under an
    empty key: the test [null !== null] fails and the data is returned
    unverified.  The messages NO_SIGNATURE and INVALID_SIGNATURE are built
    by no operation: [verifyWebhookData] never raises them, no operation
    raises them before its request, and after the request an operation
    raises such a text only by handing on what the transport supplied, the
    [desc] of a parsed response or the message of a rejection. *)
Theorem webhook_signature_absent_or_key_empty
    (this : PayOS) (webhookBody : list (string * value)) :
  let data := get (VObj webhookBody) "data" in
  let signature := get (VObj webhookBody) "signature" in
  let integrity : completion value :=
    Throw (VErr ClsError
      "The data is unreliable because the signature of the response does not match the signature of the data."
      []) in
  truthy data = true ->
  (lookup "signature" webhookBody = None ->
     verifyWebhookData this (VObj webhookBody) = integrity)
  /\ (checksumKey this = "" -> signature <> VNull ->
     verifyWebhookData this (VObj webhookBody) = integrity)
  /\ (checksumKey this = "" -> signature = VNull ->
     verifyWebhookData this (VObj webhookBody) = Return data)
  /\ never_synthesised "No signature."
  /\ never_synthesised "Invalid signature.".
Proof.
  cbv zeta. rewrite verifyWebhookData_object.
  change (get (VObj webhookBody)) with (fun k => get_own k webhookBody). cbv beta.
  intro Hdata. rewrite Hdata.
  assert (Hempty : checksumKey this = "" ->
            createSignatureFromObject (get_own "data" webhookBody) (checksumKey this)
            = None).
  { intro Hkey. unfold createSignatureFromObject. now rewrite Hkey, orb_true_r. }
  split; [|split; [|split; [|split]]].
  - intro Hmiss. unfold get_own at 2. rewrite Hmiss.
    destruct (createSignatureFromObject _ _); reflexivity.
  - intros Hkey Hsig. rewrite (Hempty Hkey).
    destruct (get_own "signature" webhookBody); try reflexivity. congruence.
  - intros Hkey Hsig. rewrite (Hempty Hkey), Hsig. reflexivity.
  - apply never_synthesised_local; try discriminate.
    intros v Hv. destruct v; discriminate.
  - apply never_synthesised_local; try discriminate.
    intros v Hv. destruct v; discriminate.
Qed.

Lemma webhook_signature_absent_or_key_empty_witness :
  verifyWebhookData Sample.client (VObj [("data", Sample.data)])
  = Throw (VErr ClsError
      "The data is unreliable because the signature of the response does not match the signature of the data."
      [])
  /\ verifyWebhookData Sample.keyless (VObj (Sample.webhook (VStr Sample.data_signature)))
  = Throw (VErr ClsError
      "The data is unreliable because the signature of the response does not match the signature of the data."
      [])
  /\ verifyWebhookData Sample.keyless (VObj (Sample.webhook VNull)) = Return Sample.data.
Proof.
  split; [|split].
  - refine (proj1 (webhook_signature_absent_or_key_empty Sample.client
                     [("data", Sample.data)] _) _); reflexivity.
  - refine (proj1 (proj2 (webhook_signature_absent_or_key_empty Sample.keyless
                     (Sample.webhook (VStr Sample.data_signature)) _)) _ _);
      [reflexivity | reflexivity | discriminate].
  - refine (proj1 (proj2 (proj2 (webhook_signature_absent_or_key_empty Sample.keyless
                     (Sample.webhook VNull) _))) _ _); reflexivity.
Defined.

(* ================================================================== *)
(** * The order of strings and [sort] *)

Section StringOrder.
Local Open Scope list_scope.

Lemma ascii_compare_lt_trans (a b c : ascii) :
  Ascii.compare a b = Lt -> Ascii.compare b c = Lt -> Ascii.compare a c = Lt.
Proof.
  unfold Ascii.compare. rewrite !N.compare_lt_iff. apply N.lt_trans.
Qed.

Lemma compare_lt_trans (a b c : string) :
  String.compare a b = Lt -> String.compare b c = Lt -> String.compare a c = Lt.
Proof.
  revert b c. induction a as [|x a IH]; intros [|y b] [|z c]; simpl;
    try discriminate; try reflexivity.
  destruct (Ascii.compare x y) eqn:Hxy; try discriminate;
    destruct (Ascii.compare y z) eqn:Hyz; try discriminate; intros Hab Hbc.
  - apply Ascii.compare_eq_iff in Hxy, Hyz. subst.
    replace (Ascii.compare z z) with Eq
      by (symmetry; unfold Ascii.compare; apply N.compare_refl).
    eauto.
  - apply Ascii.compare_eq_iff in Hxy. subst. now rewrite Hyz.
  - apply Ascii.compare_eq_iff in Hyz. subst. now rewrite Hxy.
  - now rewrite (ascii_compare_lt_trans x y z).
Qed.

Lemma ltb_trans (a b c : string) :
  string_lt a b -> string_lt b c -> string_lt a c.
Proof.
  unfold string_lt, String.ltb. intros Hab Hbc.
  destruct (String.compare a b) eqn:E1; try discriminate.
  destruct (String.compare b c) eqn:E2; try discriminate.
  now rewrite (compare_lt_trans a b c).
Qed.

Lemma ltb_asym (a b : string) : string_lt a b -> (b <? a)%string = false.
Proof.
  unfold string_lt, String.ltb. rewrite (String.compare_antisym b a).
  now destruct (String.compare a b).
Qed.

Lemma ltb_connected (a b : string) :
  (a <? b)%string = false -> (b <? a)%string = false -> a = b.
Proof.
  unfold String.ltb. rewrite (String.compare_antisym b a).
  destruct (String.compare a b) eqn:E; try discriminate.
  intros _ _. now apply String.compare_eq_iff.
Qed.

Lemma lt_le_trans (a b c : string) : string_lt a b -> string_le b c -> string_le a c.
Proof.
  unfold string_le. intros Hab Hbc.
  destruct (c <? a)%string eqn:Hca; [|reflexivity].
  assert (Hcb : string_lt c b) by (eapply ltb_trans; eauto).
  unfold string_lt in Hcb. congruence.
Qed.

Lemma insert_sorted_perm (k : string) (l : list string) :
  Permutation (insert_sorted k l) (k :: l).
Proof.
  induction l as [|x l IH]; simpl; [reflexivity|].
  destruct (k <? x)%string; [reflexivity|].
  rewrite IH. apply perm_swap.
Qed.

Lemma sort_perm (l : list string) : Permutation (sort l) l.
Proof.
  induction l as [|x l IH]; simpl; [reflexivity|].
  rewrite insert_sorted_perm. now constructor.
Qed.

Lemma insert_sorted_sorted (k : string) (l : list string) :
  StronglySorted string_le l -> StronglySorted string_le (insert_sorted k l).
Proof.
  induction 1 as [|x l Hl IH Hx]; simpl.
  - repeat constructor.
  - destruct (k <? x)%string eqn:Hkx.
    + constructor; [now constructor|].
      constructor; [now apply ltb_asym|].
      eapply Forall_impl; [|exact Hx]. intros y Hy.
      eapply lt_le_trans; eauto.
    + constructor; [assumption|].
      rewrite (insert_sorted_perm k l). constructor; assumption.
Qed.

Lemma sort_sorted (l : list string) : StronglySorted string_le (sort l).
Proof.
  induction l; simpl; [constructor|]. now apply insert_sorted_sorted.
Qed.

(** A sorted list is determined by its elements. *)
Lemma sorted_perm_unique (l1 l2 : list string) :
  StronglySorted string_le l1 -> StronglySorted string_le l2 ->
  Permutation l1 l2 -> l1 = l2.
Proof.
  intros H1. revert l2. induction H1 as [|x l1 Hl1 IH Hx]; intros l2 H2 Hperm.
  - now apply Permutation_nil in Hperm.
  - destruct H2 as [|y l2 Hl2 Hy].
    + symmetry in Hperm. now apply Permutation_nil in Hperm.
    + assert (x = y) as ->.
      { assert (Hxin : In x (y :: l2)) by (eapply Permutation_in; [exact Hperm|now left]).
        assert (Hyin : In y (x :: l1))
          by (eapply Permutation_in; [symmetry; exact Hperm|now left]).
        destruct Hxin as [->|Hxin]; [reflexivity|].
        destruct Hyin as [->|Hyin]; [reflexivity|].
        rewrite Forall_forall in Hx, Hy.
        apply ltb_connected; [apply (Hy x Hxin) | apply (Hx y Hyin)]. }
      f_equal. apply IH; [assumption|]. eapply Permutation_cons_inv; eauto.
Qed.

Lemma sort_of_perm (l1 l2 : list string) : Permutation l1 l2 -> sort l1 = sort l2.
Proof.
  intro H. apply sorted_perm_unique; try apply sort_sorted.
  now rewrite !sort_perm.
Qed.

Lemma sorted_le_NoDup_lt (l : list string) :
  StronglySorted string_le l -> NoDup l -> StronglySorted string_lt l.
Proof.
  induction 1 as [|x l Hl IH Hx]; intro Hnd; [constructor|].
  inversion Hnd as [|? ? Hnotin Hnd']; subst.
  constructor; [auto|].
  rewrite Forall_forall in Hx |- *. intros y Hy.
  unfold string_lt. destruct (x <? y)%string eqn:E; [reflexivity|].
  exfalso. apply Hnotin. rewrite (ltb_connected x y E (Hx y Hy)). exact Hy.
Qed.

Lemma sorted_filter {A} (R : A -> A -> Prop) (f : A -> bool) (l : list A) :
  StronglySorted R l -> StronglySorted R (filter f l).
Proof.
  induction 1 as [|x l Hl IH Hx]; simpl; [constructor|].
  destruct (f x); [|assumption].
  constructor; [assumption|].
  rewrite Forall_forall in Hx |- *. intros y Hy. apply filter_In in Hy. now apply Hx.
Qed.

Lemma filter_partition_perm {A} (f : A -> bool) (l : list A) :
  Permutation (filter f l ++ filter (fun x => negb (f x)) l) l.
Proof.
  induction l as [|x l IH]; simpl; [reflexivity|].
  destruct (f x); simpl.
  - now constructor.
  - rewrite <- Permutation_middle. now constructor.
Qed.

End StringOrder.

(* ================================================================== *)
(** * Own properties: reading what was written, and the order of the keys *)

Section OwnProperties.
Local Open Scope list_scope.

Lemma lookup_None (k : string) (props : list (string * value)) :
  lookup k props = None <-> ~ In k (map fst props).
Proof.
  induction props as [|[k' v'] props IH]; simpl; [tauto|].
  destruct (String.eqb_spec k k') as [->|Hne].
  - split; [discriminate|]. intros H. exfalso. apply H. now left.
  - rewrite IH. split; [intros H [E|E]; [congruence|contradiction] | tauto].
Qed.

Lemma lookup_In (k : string) (v : value) (props : list (string * value)) :
  NoDup (map fst props) -> In (k, v) props -> lookup k props = Some v.
Proof.
  induction props as [|[k' v'] props IH]; simpl; [tauto|].
  intros Hnd [E|Hin].
  - injection E as -> ->. now rewrite String.eqb_refl.
  - inversion Hnd as [|? ? Hnotin Hnd']; subst.
    destruct (String.eqb_spec k k') as [->|Hne]; [|now apply IH].
    exfalso. apply Hnotin. apply (in_map fst) in Hin. exact Hin.
Qed.

Lemma lookup_Some_In (k : string) (v : value) (props : list (string * value)) :
  lookup k props = Some v -> In (k, v) props.
Proof.
  induction props as [|[k' v'] props IH]; simpl; [discriminate|].
  destruct (String.eqb_spec k k') as [->|Hne].
  - intros [= ->]. now left.
  - intro H. right. now apply IH.
Qed.

(** The reads of two objects with the same properties agree. *)
Lemma get_own_perm (m m' : list (string * value)) (k : string) :
  NoDup (map fst m) -> Permutation m m' -> get_own k m' = get_own k m.
Proof.
  intros Hnd Hperm. unfold get_own.
  assert (Hnd' : NoDup (map fst m')).
  { eapply Permutation_NoDup; [|exact Hnd]. now apply Permutation_map. }
  destruct (lookup k m) as [v|] eqn:E.
  - apply lookup_Some_In in E.
    now rewrite (lookup_In k v m' Hnd' (Permutation_in _ Hperm E)).
  - apply lookup_None in E.
    replace (lookup k m') with (@None value); [reflexivity|].
    symmetry. apply lookup_None. intro Hin. apply E.
    eapply Permutation_in; [|exact Hin]. apply Permutation_map. now symmetry.
Qed.

Lemma lookup_app (k : string) (p q : list (string * value)) :
  lookup k (p ++ q) = match lookup k p with Some v => Some v | None => lookup k q end.
Proof.
  induction p as [|[k' v'] p IH]; simpl; [reflexivity|].
  now destruct (k =? k')%string.
Qed.

Lemma lookup_replace (k k' : string) (v : value) (props : list (string * value)) :
  lookup k' props <> None ->
  lookup k (replace k' v props) = if (k =? k')%string then Some v else lookup k props.
Proof.
  induction props as [|[k0 v0] props IH]; simpl; [congruence|].
  destruct (String.eqb_spec k' k0) as [->|Hne]; intro H; simpl.
  - now destruct (k =? k0)%string.
  - destruct (String.eqb_spec k k0) as [->|Hne'].
    + destruct (String.eqb_spec k0 k'); [congruence|reflexivity].
    + now apply IH.
Qed.

Lemma lookup_insert_index (k k' : string) (i : N) (v : value)
    (props : list (string * value)) :
  lookup k' props = None ->
  lookup k (insert_index i k' v props)
  = if (k =? k')%string then Some v else lookup k props.
Proof.
  induction props as [|[k0 v0] props IH]; simpl; [reflexivity|].
  destruct (String.eqb_spec k' k0) as [->|Hne]; [discriminate|]. intro H.
  assert (Hhead : lookup k ((k', v) :: (k0, v0) :: props)
                  = if (k =? k')%string then Some v else lookup k ((k0, v0) :: props))
    by reflexivity.
  destruct (array_index k0) as [j|]; [|exact Hhead].
  destruct (j <? i)%N; [|exact Hhead].
  simpl. rewrite (IH H).
  destruct (String.eqb_spec k k0) as [->|]; [|reflexivity].
  destruct (String.eqb_spec k0 k'); [congruence|reflexivity].
Qed.

Lemma lookup_define (k k' : string) (v : value) (props : list (string * value)) :
  lookup k (define props k' v) = if (k =? k')%string then Some v else lookup k props.
Proof.
  unfold define. destruct (lookup k' props) eqn:E.
  - apply lookup_replace. congruence.
  - destruct (array_index k').
    + now apply lookup_insert_index.
    + rewrite lookup_app. simpl.
      destruct (String.eqb_spec k k') as [->|]; [now rewrite E|].
      now destruct (lookup k props).
Qed.

Lemma keys_insert_index (i : N) (k : string) (v : value) (props : list (string * value)) :
  map fst (insert_index i k v props) = insert_key i k (map fst props).
Proof.
  induction props as [|[k0 v0] props IH]; simpl; [reflexivity|].
  destruct (array_index k0) as [j|]; [|reflexivity].
  destruct (j <? i)%N; simpl; [now rewrite IH|reflexivity].
Qed.

Lemma keys_define_fresh (k : string) (v : value) (props : list (string * value)) :
  ~ In k (map fst props) ->
  map fst (define props k v) = key_step (map fst props) k.
Proof.
  intro Hfresh. apply lookup_None in Hfresh. unfold define, key_step.
  rewrite Hfresh. destruct (array_index k).
  - apply keys_insert_index.
  - now rewrite map_app.
Qed.

Lemma insert_key_perm (i : N) (k : string) (l : list string) :
  Permutation (insert_key i k l) (k :: l).
Proof.
  induction l as [|x l IH]; simpl; [reflexivity|].
  destruct (array_index x) as [j|]; [|reflexivity].
  destruct (j <? i)%N; [|reflexivity].
  rewrite IH. apply perm_swap.
Qed.

Lemma key_step_perm (l : list string) (k : string) : Permutation (key_step l k) (k :: l).
Proof.
  unfold key_step. destruct (array_index k).
  - apply insert_key_perm.
  - symmetry. apply Permutation_cons_append.
Qed.

(** The keys after the [reduce] of [sortObjectByKey], from the keys alone. *)
Lemma keys_fold_assign (f : string -> value) (ks : list string)
    (acc : list (string * value)) :
  NoDup ks -> ~ In "__proto__" ks ->
  (forall k, In k ks -> ~ In k (map fst acc)) ->
  map fst (fold_left (fun acc key => assign acc key (f key)) ks acc)
  = fold_left key_step ks (map fst acc).
Proof.
  revert acc. induction ks as [|a ks IH]; intros acc Hnd Hproto Hfresh; [reflexivity|].
  inversion Hnd as [|? ? Hnotin Hnd']; subst. cbn [fold_left].
  assert (Ha : (a =? "__proto__")%string = false).
  { apply String.eqb_neq. intros ->. apply Hproto. now left. }
  unfold assign at 2. rewrite Ha.
  rewrite IH.
  - now rewrite keys_define_fresh by (apply Hfresh; now left).
  - assumption.
  - intro H. apply Hproto. now right.
  - intros k Hk. rewrite keys_define_fresh by (apply Hfresh; now left).
    intro Hin. apply (Permutation_in _ (key_step_perm _ _)) in Hin.
    destruct Hin as [->|Hin]; [contradiction|].
    apply (Hfresh k); [now right|assumption].
Qed.

Lemma lookup_fold_assign_other (f : string -> value) (ks : list string)
    (acc : list (string * value)) (k : string) :
  ~ In k ks ->
  lookup k (fold_left (fun acc key => assign acc key (f key)) ks acc) = lookup k acc.
Proof.
  revert acc. induction ks as [|a ks IH]; intros acc Hk; [reflexivity|].
  cbn [fold_left]. rewrite IH by (intro; apply Hk; now right).
  unfold assign. destruct (a =? "__proto__")%string; [reflexivity|].
  rewrite lookup_define.
  destruct (String.eqb_spec k a) as [->|]; [|reflexivity].
  exfalso. apply Hk. now left.
Qed.

(** Every key written by the [reduce] reads back with the value written. *)
Lemma lookup_fold_assign (f : string -> value) (ks : list string)
    (acc : list (string * value)) (k : string) :
  In k ks -> k <> "__proto__" ->
  lookup k (fold_left (fun acc key => assign acc key (f key)) ks acc) = Some (f k).
Proof.
  revert acc. induction ks as [|a ks IH]; intros acc Hin Hproto; [contradiction|].
  cbn [fold_left].
  destruct (in_dec string_dec k ks) as [Hlater|Hlast]; [now apply IH|].
  destruct Hin as [->|Hin]; [|contradiction].
  rewrite lookup_fold_assign_other by assumption.
  unfold assign. apply String.eqb_neq in Hproto. rewrite Hproto.
  now rewrite lookup_define, String.eqb_refl.
Qed.

End OwnProperties.

(* ================================================================== *)
(** * The order in which [sortObjectByKey] leaves the keys *)

Section KeyOrder.
Local Open Scope list_scope.

Lemma insert_key_app (i : N) (k : string) (I S : list string) :
  Forall (fun x => is_index x = true) I ->
  Forall (fun x => is_index x = false) S ->
  insert_key i k (I ++ S) = insert_key i k I ++ S.
Proof.
  intros HI HS. induction HI as [|x I Hx HI IH]; simpl.
  - destruct HS as [|y S Hy HS]; [reflexivity|].
    simpl. unfold is_index in Hy. now destruct (array_index y).
  - unfold is_index in Hx. destruct (array_index x) as [j|]; [|discriminate].
    destruct (j <? i)%N; [|reflexivity]. simpl. now rewrite IH.
Qed.

Lemma insert_key_sorted (i : N) (k : string) (I : list string) :
  array_index k = Some i ->
  Forall (fun x => is_index x = true) I ->
  StronglySorted index_le I ->
  StronglySorted index_le (insert_key i k I).
Proof.
  intros Hk HI Hsorted. induction Hsorted as [|x I Hs IH Hx]; simpl.
  - repeat constructor.
  - inversion HI as [|? ? Hxi HI']; subst.
    unfold is_index in Hxi. destruct (array_index x) as [j|] eqn:Ex; [|discriminate].
    destruct (N.ltb_spec j i) as [Hlt|Hge].
    + constructor; [now apply IH|].
      rewrite (insert_key_perm i k I). constructor; [|assumption].
      unfold index_le. rewrite Ex, Hk. lia.
    + constructor; [now constructor|].
      constructor.
      * unfold index_le. rewrite Ex, Hk. exact Hge.
      * eapply Forall_impl; [|exact Hx]. intros y. unfold index_le.
        rewrite Ex, Hk. destruct (array_index y); [lia|tauto].
Qed.

Lemma fold_key_step_split (ks I S : list string) :
  Forall (fun x => is_index x = true) I ->
  Forall (fun x => is_index x = false) S ->
  fold_left key_step ks (I ++ S)
  = fold_left key_step (filter is_index ks) I
    ++ (S ++ filter (fun x => negb (is_index x)) ks).
Proof.
  revert I S. induction ks as [|a ks IH]; intros I S HI HS; simpl.
  - now rewrite app_nil_r.
  - destruct (is_index a) eqn:Ea; simpl.
    + assert (Hstep : key_step (I ++ S) a = key_step I a ++ S).
      { unfold key_step. unfold is_index in Ea.
        destruct (array_index a); [|discriminate]. now apply insert_key_app. }
      rewrite Hstep. apply IH; [|assumption].
      eapply Permutation_Forall; [symmetry; apply key_step_perm|].
      now constructor.
    + assert (Hstep : key_step (I ++ S) a = I ++ (S ++ [a])).
      { unfold key_step. unfold is_index in Ea.
        destruct (array_index a); [discriminate|]. now rewrite app_assoc. }
      rewrite Hstep, IH.
      * now rewrite <- (app_assoc S [a]).
      * assumption.
      * apply Forall_app. split; [assumption|]. now repeat constructor.
Qed.

Lemma fold_index_sorted (L I : list string) :
  Forall (fun x => is_index x = true) L ->
  Forall (fun x => is_index x = true) I ->
  StronglySorted index_le I ->
  Forall (fun x => is_index x = true) (fold_left key_step L I)
  /\ StronglySorted index_le (fold_left key_step L I)
  /\ Permutation (fold_left key_step L I) (I ++ L).
Proof.
  intro HL. revert I. induction HL as [|a L Ha HL IH]; intros I HI Hsorted; simpl.
  - rewrite app_nil_r. auto.
  - assert (HI' : Forall (fun x => is_index x = true) (key_step I a)).
    { eapply Permutation_Forall; [symmetry; apply key_step_perm|]. now constructor. }
    assert (Hs' : StronglySorted index_le (key_step I a)).
    { unfold key_step. unfold is_index in Ha.
      destruct (array_index a) as [i|] eqn:Ea; [|discriminate].
      now apply insert_key_sorted. }
    destruct (IH _ HI' Hs') as (H1 & H2 & H3). repeat split; try assumption.
    rewrite H3, (key_step_perm I a). simpl. apply Permutation_middle.
Qed.

Lemma fold_left_assign_ext (f g : string -> value) (ks : list string)
    (acc : list (string * value)) :
  (forall k, f k = g k) ->
  fold_left (fun acc key => assign acc key (f key)) ks acc
  = fold_left (fun acc key => assign acc key (g key)) ks acc.
Proof.
  intro Hfg. revert acc. induction ks as [|a ks IH]; intro acc; simpl; [reflexivity|].
  now rewrite Hfg, IH.
Qed.

(** The result of [sortObjectByKey] does not depend on the order in which the
    properties of its argument were created. *)
Lemma sortObjectByKey_perm (m m' : list (string * value)) :
  NoDup (map fst m) -> Permutation m m' ->
  sortObjectByKey (VObj m') = sortObjectByKey (VObj m).
Proof.
  intros Hnd Hperm. unfold sortObjectByKey. f_equal. cbn [keys].
  rewrite (sort_of_perm (map fst m') (map fst m))
    by (apply Permutation_map; now symmetry).
  apply fold_left_assign_ext. intro k. now apply get_own_perm.
Qed.

(** The keys of the result: the array indices among the sorted keys, moved
    to the front in numeric order, then the other keys as sorted. *)
Lemma sortObjectByKey_keys (m : list (string * value)) :
  NoDup (map fst m) -> ~ In "__proto__" (map fst m) ->
  keys (sortObjectByKey (VObj m))
  = fold_left key_step (filter is_index (sort (map fst m))) []
    ++ filter (fun x => negb (is_index x)) (sort (map fst m)).
Proof.
  intros Hnd Hproto. unfold sortObjectByKey. cbn [keys].
  rewrite keys_fold_assign.
  - apply (fold_key_step_split (sort (map fst m)) [] []); constructor.
  - eapply Permutation_NoDup; [symmetry; apply sort_perm|assumption].
  - intro H. apply Hproto. eapply Permutation_in; [apply sort_perm|exact H].
  - intros k _ [].
Qed.

Lemma sortObjectByKey_get (m : list (string * value)) (k : string) :
  In k (map fst m) -> k <> "__proto__" ->
  get (sortObjectByKey (VObj m)) k = get_own k m.
Proof.
  intros Hin Hproto. unfold sortObjectByKey. cbn [get keys]. unfold get_own at 1.
  rewrite lookup_fold_assign; [reflexivity| |assumption].
  eapply Permutation_in; [symmetry; apply sort_perm|exact Hin].
Qed.

End KeyOrder.

(** C5, as the code has it.  Let [m] be a flat mapping with distinct keys.
    Two mappings holding the same pairs, created in any order, encode to the
    same string.  When no key is [__proto__], the encoding
    [objectToQueryString(sortObjectByKey(m))] lists the keys of [m], all of
    them and each once, every pair as [key=value] with the value [m] has for
    the key, joined by [&], in this order: first the keys that are array
    indices, in ascending numeric order, then the other keys in ascending
    order of their code units.  For a mapping without array-index keys this
    is the lexicographic order of all its keys. *)
Theorem canonical_encoding (m : list (string * value)) :
  NoDup (map fst m) ->
  let listed := keys (sortObjectByKey (VObj m)) in
  (forall m', Permutation m m' ->
     objectToQueryString (sortObjectByKey (VObj m'))
     = objectToQueryString (sortObjectByKey (VObj m)))
  /\ (~ In "__proto__" (map fst m) ->
      Permutation listed (map fst m)
      /\ objectToQueryString (sortObjectByKey (VObj m))
         = String.concat "&"
             (map (fun key => key ++ "=" ++ to_string (get_own key m)) listed)
      /\ (exists indices names,
            listed = (indices ++ names)%list
            /\ Forall (fun k => is_index k = true) indices
            /\ Forall (fun k => is_index k = false) names
            /\ StronglySorted index_le indices
            /\ StronglySorted string_lt names)
      /\ (Forall (fun k => is_index k = false) (map fst m) ->
          StronglySorted string_lt listed)).
Proof.
  intros Hnd listed. split.
  { intros m' Hperm. now rewrite (sortObjectByKey_perm m m'). }
  intro Hproto.
  pose (ks := sort (map fst m)).
  assert (Hks : Permutation ks (map fst m)) by apply sort_perm.
  assert (Hnd_ks : NoDup ks).
  { eapply Permutation_NoDup; [symmetry; exact Hks|assumption]. }
  assert (Hlt : StronglySorted string_lt ks).
  { apply sorted_le_NoDup_lt; [apply sort_sorted|assumption]. }
  assert (Hlisted : listed = (fold_left key_step (filter is_index ks) []
                              ++ filter (fun x => negb (is_index x)) ks)%list)
    by (apply sortObjectByKey_keys; assumption).
  assert (Hidx : Forall (fun x => is_index x = true) (filter is_index ks)).
  { apply Forall_forall. intros x Hx. now apply filter_In in Hx. }
  destruct (fold_index_sorted (filter is_index ks) [] Hidx (Forall_nil _)
              (SSorted_nil _)) as (Hall & Hsorted & Hperm).
  assert (Hlisted_perm : Permutation listed (map fst m)).
  { rewrite Hlisted, Hperm. simpl. rewrite filter_partition_perm. exact Hks. }
  split; [exact Hlisted_perm|]. split; [|split].
  - unfold objectToQueryString. f_equal. apply map_ext_in.
    intros key Hkey. fold listed in Hkey. rewrite sortObjectByKey_get; [reflexivity| |].
    + eapply Permutation_in; [exact Hlisted_perm|exact Hkey].
    + intros ->. apply Hproto.
      eapply Permutation_in; [exact Hlisted_perm|exact Hkey].
  - exists (fold_left key_step (filter is_index ks) []),
           (filter (fun x => negb (is_index x)) ks).
    repeat split; try assumption.
    + apply Forall_forall. intros x Hx. apply filter_In in Hx.
      now apply negb_true_iff.
    + now apply sorted_filter.
  - intro Hnone.
    assert (Hempty : filter is_index ks = []).
    { assert (Hall' : Forall (fun k => is_index k = false) ks).
      { eapply Permutation_Forall; [symmetry; exact Hks|exact Hnone]. }
      clear - Hall'. induction Hall' as [|x l Hx _ IH]; simpl; [reflexivity|].
      now rewrite Hx. }
    rewrite Hlisted, Hempty. simpl. now apply sorted_filter.
Qed.

Lemma canonical_encoding_witness :
  objectToQueryString (sortObjectByKey (VObj Sample.shuffled))
  = objectToQueryString (sortObjectByKey (VObj Sample.mapping))
  /\ objectToQueryString (sortObjectByKey (VObj Sample.mapping))
     = String.concat "&"
         (map (fun key => key ++ "=" ++ to_string (get_own key Sample.mapping))
              (keys (sortObjectByKey (VObj Sample.mapping))))
  /\ objectToQueryString (sortObjectByKey (VObj [("9", VStr "b"); ("10", VStr "a")]))
     = "9=b&10=a".
Proof.
  assert (Hnd : NoDup (map fst Sample.mapping)).
  { repeat constructor; simpl; intuition discriminate. }
  assert (Hnd' : NoDup (map fst [("9", VStr "b"); ("10", VStr "a")])).
  { repeat constructor; simpl; intuition discriminate. }
  destruct (canonical_encoding Sample.mapping Hnd) as [Hperm Horder].
  split; [|split].
  - apply Hperm. unfold Sample.mapping, Sample.shuffled.
    do 2 apply perm_skip. apply perm_swap.
  - apply Horder. simpl. intuition discriminate.
  - refine (proj1 (proj2 (proj2 (canonical_encoding _ Hnd') _))).
    simpl. intuition discriminate.
Defined.

(** C5 as stated fails on keys that are array indices: an object lists them
    first, in numeric order, whatever the order in which [sortObjectByKey]
    writes them, so "9" comes before "10" although "10" sorts before "9";
    and the key [__proto__] is not written as an own property at all. *)
Lemma index_keys_not_lexicographic :
  objectToQueryString (sortObjectByKey (VObj [("9", VStr "b"); ("10", VStr "a")]))
  = "9=b&10=a"
  /\ sort ["9"; "10"] = ["10"; "9"]
  /\ objectToQueryString
       (sortObjectByKey (VObj [("__proto__", VStr "x"); ("a", VNum (of_Z 1))]))
     = "a=1".
Proof. repeat split; vm_compute; reflexivity. Qed.

(* ================================================================== *)
(** * Further properties of the payment-link operations *)

Lemma checked_rejected code_ok key reason :
  checked code_ok key (FetchRejects reason) = rethrow reason.
Proof. reflexivity. Qed.

Lemma checked_unparsed code_ok key status reason :
  checked code_ok key (FetchResolves status (JsonRejects reason)) = rethrow reason.
Proof. reflexivity. Qed.

Lemma createPaymentLink_shape (this : PayOS) (paymentData : value) :
  checked_shape (fun code => strict_eq code (VStr "00")) (checksumKey this)
                (createPaymentLink this paymentData).
Proof.
  unfold checked_shape, createPaymentLink. destruct (_ || _).
  - left. destruct (is_nullish paymentData); eauto.
  - right. eauto.
Qed.

Lemma getPaymentLinkInformation_shape (this : PayOS) (orderId : value) :
  checked_shape loose_eq_00 (checksumKey this) (getPaymentLinkInformation this orderId).
Proof.
  unfold checked_shape, getPaymentLinkInformation.
  destruct (invalid_orderId orderId); [left|right]; eauto.
Qed.

Lemma cancelPaymentLink_shape (this : PayOS) (orderId reason : value) :
  checked_shape loose_eq_00 (checksumKey this) (cancelPaymentLink this orderId reason).
Proof.
  unfold checked_shape, cancelPaymentLink.
  destruct (invalid_orderId orderId); [left|right]; eauto.
Qed.

Lemma shape_requests code_ok key p req :
  checked_shape code_ok key p -> requests p = [req] ->
  p = Fetch req (checked code_ok key).
Proof.
  intros [(e & ->)|(req' & ->)]; simpl; [discriminate|].
  now intros [= ->].
Qed.

Lemma rethrow_plain {A} (error : value) :
  exists message, @rethrow A error = Throw (VErr ClsError message []).
Proof. unfold rethrow, new_Error. eauto. Qed.

(** [checked] returns only what a parsed, verified response carries. *)
Lemma checked_return code_ok key outcome d :
  checked code_ok key outcome = Return d ->
  exists status resp,
    outcome = FetchResolves status (JsonValue resp)
    /\ code_ok (get resp "code") = true
    /\ d = get resp "data"
    /\ truthy d = true
    /\ get resp "signature" = of_signature (createSignatureFromObject d key).
Proof.
  intro H. destruct outcome as [reason|status [resp|reason]].
  - rewrite checked_rejected in H. destruct (@rethrow_plain value reason). congruence.
  - destruct (is_nullish resp) eqn:Hnull.
    + rewrite checked_nullish in H by assumption. discriminate.
    + rewrite checked_response in H by assumption.
      destruct (code_ok (get resp "code")) eqn:Hcode; [|discriminate].
      destruct (strict_eq _ _) eqn:Hsig; [|discriminate].
      destruct (truthy (get resp "data")) eqn:Hdata; [|discriminate].
      injection H as <-. apply strict_eq_of_signature in Hsig.
      exists status, resp. auto.
  - rewrite checked_unparsed in H. destruct (@rethrow_plain value reason). congruence.
Qed.

Lemma checked_throw_plain code_ok key outcome e :
  checked code_ok key outcome = Throw e -> exists message, e = VErr ClsError message [].
Proof.
  intro H. destruct outcome as [reason|status [resp|reason]].
  - rewrite checked_rejected in H.
    destruct (@rethrow_plain value reason) as [m Hm]. exists m. congruence.
  - destruct (is_nullish resp) eqn:Hnull.
    + rewrite checked_nullish in H by assumption. injection H as <-. eauto.
    + rewrite checked_response in H by assumption.
      destruct (code_ok _); [destruct (strict_eq _ _); [destruct (truthy _)|]|];
        try discriminate; injection H as <-; eauto.
  - rewrite checked_unparsed in H.
    destruct (@rethrow_plain value reason) as [m Hm]. exists m. congruence.
Qed.

Lemma sound_release_shape (this : PayOS) code_ok (p : prog value) :
  checked_shape code_ok (checksumKey this) p -> sound_release this p.
Proof.
  intros [(e & ->)|(req & ->)] transport d; simpl; [discriminate|].
  intro H. apply checked_return in H.
  destruct H as (status & resp & Hanswer & _ & Hd & Htruthy & Hsig).
  exists req, status, resp. subst d. auto.
Qed.

Lemma plain_errors_shape code_ok key (p : prog value) :
  checked_shape code_ok key p -> raises_plain_errors p.
Proof.
  intros Hshape transport req e Hreq.
  rewrite (shape_requests _ _ _ _ Hshape Hreq). simpl. apply checked_throw_plain.
Qed.

(** X1.  Whatever the transport answers, and whatever the type of the
    response's [code], each payment-link operation returns a value only from
    a parsed response: the value is that response's [data], it is truthy,
    and the response's [signature] is the one recomputed from it under the
    checksum key.  A rejected [fetch], an unparsable body and a failed
    validation never lead to a returned value. *)
Theorem payment_link_release_is_sound
    (this : PayOS) (paymentData orderId cancellationReason : value) :
  sound_release this (createPaymentLink this paymentData)
  /\ sound_release this (getPaymentLinkInformation this orderId)
  /\ sound_release this (cancelPaymentLink this orderId cancellationReason).
Proof.
  split; [|split]; eapply sound_release_shape.
  - apply createPaymentLink_shape.
  - apply getPaymentLinkInformation_shape.
  - apply cancelPaymentLink_shape.
Qed.

Lemma payment_link_release_is_sound_witness :
  exists req status resp,
    requests (getPaymentLinkInformation Sample.client (VNum (of_Z 42))) = [req]
    /\ Sample.answers (Sample.envelope "00" (VStr Sample.data_signature)) req
       = FetchResolves status (JsonValue resp)
    /\ Sample.data = get resp "data"
    /\ truthy Sample.data = true
    /\ get resp "signature"
       = of_signature (createSignatureFromObject Sample.data "secret").
Proof.
  refine (proj1 (proj2 (payment_link_release_is_sound Sample.client VUndefined
                          (VNum (of_Z 42)) VUndefined))
            (Sample.answers (Sample.envelope "00" (VStr Sample.data_signature)))
            Sample.data _).
  vm_compute. reflexivity.
Defined.

(** X2.  Once its request is issued, a payment-link operation raises nothing
    but instances of [Error] itself that carry a message and no other own
    property: neither the [PayOSError] of a gateway failure, nor the
    TypeError of a response that is [null], nor the error of the transport
    reaches the caller as it was thrown. *)
Theorem payment_link_errors_are_plain
    (this : PayOS) (paymentData orderId cancellationReason : value) :
  raises_plain_errors (createPaymentLink this paymentData)
  /\ raises_plain_errors (getPaymentLinkInformation this orderId)
  /\ raises_plain_errors (cancelPaymentLink this orderId cancellationReason).
Proof.
  split; [|split]; eapply plain_errors_shape.
  - apply createPaymentLink_shape.
  - apply getPaymentLinkInformation_shape.
  - apply cancelPaymentLink_shape.
Qed.

Lemma payment_link_errors_are_plain_witness :
  exists message,
    VErr ClsError "null is not an object" [] = VErr ClsError message [].
Proof.
  refine (proj1 (payment_link_errors_are_plain Sample.client Sample.paymentData
                   VUndefined VUndefined)
            (Sample.answers VNull) _ (VErr ClsError "null is not an object" []) _ _).
  - vm_compute. reflexivity.
  - vm_compute. reflexivity.
Defined.

Lemma errorData_of_instance cls message props :
  lookup "response" props = None ->
  errorData_of (VErr cls message props) = VErr cls message props.
Proof.
  intro H. unfold errorData_of, get_opt. simpl. unfold get_own. now rewrite H.
Qed.

Lemma rethrow_instance {A} cls message props :
  message <> "" -> lookup "response" props = None ->
  @rethrow A (VErr cls message props) = Throw (VErr ClsError message []).
Proof.
  intros Hm Hr. unfold rethrow. rewrite errorData_of_instance by assumption.
  unfold get_opt, or_else. simpl.
  destruct message; [congruence|reflexivity].
Qed.

Lemma errorData_of_response_data reason :
  truthy (get_opt (get_opt reason "response") "data") = true ->
  errorData_of reason = get_opt (get_opt reason "response") "data".
Proof.
  intro H. unfold errorData_of. unfold or_else at 2. rewrite H.
  unfold or_else. now rewrite H.
Qed.

Lemma keeps_failure_message_shape code_ok key (p : prog value) :
  checked_shape code_ok key p -> keeps_failure_message p.
Proof.
  intros Hshape transport req cls message props Hreq Hm Hr Hanswer.
  rewrite (shape_requests _ _ _ _ Hshape Hreq). simpl.
  destruct Hanswer as [->|(status & ->)].
  - rewrite checked_rejected. now apply rethrow_instance.
  - rewrite checked_unparsed. now apply rethrow_instance.
Qed.

Lemma prefers_response_data_shape code_ok key (p : prog value) :
  checked_shape code_ok key p -> prefers_response_data p.
Proof.
  intros Hshape transport req reason Hreq Hanswer d Hd.
  rewrite (shape_requests _ _ _ _ Hshape Hreq). simpl.
  rewrite Hanswer, checked_rejected. unfold rethrow.
  now rewrite (errorData_of_response_data reason Hd).
Qed.

Lemma confirmWebhook_rejected (this : PayOS) (webhookUrl : string) reason :
  webhookUrl <> "" ->
  get_opt (errorData_of reason) "status" = VUndefined ->
  run (confirmWebhook this webhookUrl) (fun _ => FetchRejects reason)
  = Throw (new_Error (or_else (get_opt (errorData_of reason) "message")
                              (errorData_of reason))).
Proof.
  intros Hurl Hstatus. unfold confirmWebhook.
  replace (negb (truthy (VStr webhookUrl)) || (String.length webhookUrl =? 0)%nat)
    with false by (destruct webhookUrl; [congruence|reflexivity]).
  cbn [run try_catch]. cbv zeta. now rewrite Hstatus.
Qed.

(** X3.  A failure of the transport keeps its message.  When [fetch] rejects,
    or [response.json()] does, with an error instance that has a message
    and no [response] property (the TypeError of a network failure, the
    SyntaxError of a body that is not JSON), each payment-link operation
    raises an [Error] with that same message; so does [confirmWebhook] when
    [fetch] rejects with such an instance that has no [status] either. *)
Theorem transport_failure_keeps_message
    (this : PayOS) (paymentData orderId cancellationReason : value) (webhookUrl : string) :
  keeps_failure_message (createPaymentLink this paymentData)
  /\ keeps_failure_message (getPaymentLinkInformation this orderId)
  /\ keeps_failure_message (cancelPaymentLink this orderId cancellationReason)
  /\ (forall cls message props,
        webhookUrl <> "" -> message <> "" ->
        lookup "response" props = None -> lookup "status" props = None ->
        run (confirmWebhook this webhookUrl)
            (fun _ => FetchRejects (VErr cls message props))
        = Throw (VErr ClsError message [])).
Proof.
  split; [|split; [|split]].
  - eapply keeps_failure_message_shape, createPaymentLink_shape.
  - eapply keeps_failure_message_shape, getPaymentLinkInformation_shape.
  - eapply keeps_failure_message_shape, cancelPaymentLink_shape.
  - intros cls message props Hurl Hm Hr Hs.
    rewrite confirmWebhook_rejected; try assumption.
    + rewrite errorData_of_instance by assumption.
      unfold get_opt, or_else. simpl. destruct message; [congruence|reflexivity].
    + rewrite errorData_of_instance by assumption.
      unfold get_opt. simpl. unfold get_own. now rewrite Hs.
Qed.

Lemma transport_failure_keeps_message_witness :
  run (cancelPaymentLink Sample.client (VStr "order-7") (VStr "duplicate"))
      (fun _ => FetchResolves 502
                  (JsonRejects (VErr ClsSyntaxError "Unexpected token <" [])))
  = Throw (VErr ClsError "Unexpected token <" [])
  /\ run (confirmWebhook Sample.client "https://merchant.example/hook")
         (fun _ => FetchRejects (VErr ClsTypeError "fetch failed" []))
     = Throw (VErr ClsError "fetch failed" []).
Proof.
  pose proof (transport_failure_keeps_message Sample.client VUndefined (VStr "order-7")
                (VStr "duplicate") "https://merchant.example/hook")
    as (_ & _ & Hcancel & Hconfirm).
  split.
  - refine (Hcancel _ _ ClsSyntaxError "Unexpected token <" [] _ _ _ _).
    + vm_compute. reflexivity.
    + discriminate.
    + reflexivity.
    + right. exists 502. reflexivity.
  - apply Hconfirm; (discriminate || reflexivity).
Defined.

(** X4.  The [catch] clauses read [error.response.data] before
    [error.response] and [error].  When the rejection of [fetch] has a truthy
    [response.data], a payment-link operation raises an [Error] made from
    that value alone (its [message], or the value itself); and
    [confirmWebhook] looks for the status in that value, so that, when it
    has none, a status 400, 401 or 5xx of [error.response] is not mapped and
    the same [Error] is raised. *)
Theorem rejection_response_data_first
    (this : PayOS) (paymentData orderId cancellationReason : value) (webhookUrl : string) :
  prefers_response_data (createPaymentLink this paymentData)
  /\ prefers_response_data (getPaymentLinkInformation this orderId)
  /\ prefers_response_data (cancelPaymentLink this orderId cancellationReason)
  /\ (forall reason,
        let d := get_opt (get_opt reason "response") "data" in
        webhookUrl <> "" -> truthy d = true -> get_opt d "status" = VUndefined ->
        run (confirmWebhook this webhookUrl) (fun _ => FetchRejects reason)
        = Throw (new_Error (or_else (get_opt d "message") d))).
Proof.
  split; [|split; [|split]].
  - eapply prefers_response_data_shape, createPaymentLink_shape.
  - eapply prefers_response_data_shape, getPaymentLinkInformation_shape.
  - eapply prefers_response_data_shape, cancelPaymentLink_shape.
  - intros reason d Hurl Hd Hs.
    rewrite confirmWebhook_rejected; try assumption;
      rewrite (errorData_of_response_data reason Hd); [reflexivity|exact Hs].
Qed.

Lemma rejection_response_data_first_witness :
  run (confirmWebhook Sample.client "https://merchant.example/hook")
      (fun _ => FetchRejects
         (VErr ClsError "Request failed with status code 400"
            [("response",
              VObj [("status", VNum (of_Z 400));
                    ("data", VObj [("code", VStr "20");
                                   ("message", VStr "Webhook url invalid")])])]))
  = Throw (VErr ClsError "Webhook url invalid" []).
Proof.
  refine (proj2 (proj2 (proj2 (rejection_response_data_first Sample.client VUndefined
            VUndefined VUndefined "https://merchant.example/hook")))
          (VErr ClsError "Request failed with status code 400"
            [("response",
              VObj [("status", VNum (of_Z 400));
                    ("data", VObj [("code", VStr "20");
                                   ("message", VStr "Webhook url invalid")])])])
          _ _ _).
  - discriminate.
  - reflexivity.
  - reflexivity.
Defined.

Lemma settles_success_code_shape (this : PayOS) code_ok (p : prog value) :
  code_ok (VStr "00") = true ->
  checked_shape code_ok (checksumKey this) p -> settles_success_code this p.
Proof.
  intros Hok Hshape transport req status resp Hreq Hanswer Hcode. cbv zeta.
  rewrite (shape_requests _ _ _ _ Hshape Hreq). simpl run. rewrite Hanswer.
  rewrite checked_response by (eapply string_code_not_nullish; eauto).
  rewrite Hcode, Hok.
  repeat split.
  - intro Hne. apply strict_eq_of_signature_false in Hne. now rewrite Hne.
  - intros Heq Hdata. apply strict_eq_of_signature in Heq. now rewrite Heq, Hdata.
  - intros Heq Hdata. apply strict_eq_of_signature in Heq. now rewrite Heq, Hdata.
Qed.

(** X5.  On a parsed response of code "00" the outcome of each payment-link
    operation is settled by the signature and the data alone: a [signature]
    that differs from the recomputed one raises the [Error] with the fixed
    integrity message; an equal one with [data] absent or falsy (the
    signature is then [null]) raises an [Error] with the response's [desc];
    an equal one with [data] present returns the data. *)
Theorem success_code_outcomes
    (this : PayOS) (paymentData orderId cancellationReason : value) :
  settles_success_code this (createPaymentLink this paymentData)
  /\ settles_success_code this (getPaymentLinkInformation this orderId)
  /\ settles_success_code this (cancelPaymentLink this orderId cancellationReason).
Proof.
  split; [|split].
  - apply (settles_success_code_shape this (fun code => strict_eq code (VStr "00")));
      [reflexivity|apply createPaymentLink_shape].
  - apply (settles_success_code_shape this loose_eq_00);
      [reflexivity|apply getPaymentLinkInformation_shape].
  - apply (settles_success_code_shape this loose_eq_00);
      [reflexivity|apply cancelPaymentLink_shape].
Qed.

Lemma success_code_outcomes_witness :
  run (createPaymentLink Sample.client Sample.paymentData)
      (Sample.answers (VObj [("code", VStr "00"); ("desc", VStr "success");
                             ("data", VNull); ("signature", VNull)]))
  = Throw (VErr ClsError "success" []).
Proof.
  refine (proj1 (proj2 (proj1 (success_code_outcomes Sample.client Sample.paymentData
                                 VUndefined VUndefined)
                          (Sample.answers
                             (VObj [("code", VStr "00"); ("desc", VStr "success");
                                    ("data", VNull); ("signature", VNull)]))
                          _ 200
                          (VObj [("code", VStr "00"); ("desc", VStr "success");
                                 ("data", VNull); ("signature", VNull)])
                          _ _ _)) _ _).
  - vm_compute. reflexivity.
  - reflexivity.
  - reflexivity.
  - reflexivity.
  - reflexivity.
Defined.

(** X6.  [confirmWebhook] returns nothing but the [webhookUrl] it was given,
    and only for a non-empty URL whose request [fetch] resolved; with the
    empty URL it raises "Invalid Parameter." and issues no request, and with
    a non-empty one it issues exactly the POST of [{ webhookUrl }] to
    /confirm-webhook. *)
Theorem confirmWebhook_returns_its_url (this : PayOS) (webhookUrl : string) :
  (forall transport v,
     run (confirmWebhook this webhookUrl) transport = Return v ->
     v = VStr webhookUrl /\ webhookUrl <> ""
     /\ exists req status body,
          requests (confirmWebhook this webhookUrl) = [req]
          /\ transport req = FetchResolves status body)
  /\ confirmWebhook this "" = Done (Throw (VErr ClsError "Invalid Parameter." []))
  /\ (webhookUrl <> "" ->
      requests (confirmWebhook this webhookUrl)
      = [Request "https://api-merchant.payos.vn/confirm-webhook" "POST"
           (VObj [("webhookUrl", VStr webhookUrl)])
           [("x-client-id", clientId this); ("x-api-key", apiKey this);
            ("Content-Type", "application/json")]]).
Proof.
  split; [|split; [reflexivity|]].
  - intros transport v. unfold confirmWebhook.
    destruct webhookUrl as [|c url]; [discriminate|].
    cbn [truthy negb String.eqb orb String.length Nat.eqb run requests].
    change (negb (negb false)) with true. cbv iota.
    destruct (transport _) as [reason|status body] eqn:Hanswer; cbn [try_catch].
    + destruct (strict_eq _ _); [discriminate|].
      destruct (strict_eq _ _); [discriminate|].
      destruct (prefix _ _); discriminate.
    + intros [= <-]. split; [reflexivity|]. split; [discriminate|]. eauto.
  - intro Hurl. unfold confirmWebhook.
    destruct webhookUrl; [congruence|reflexivity].
Qed.

Lemma confirmWebhook_returns_its_url_witness :
  requests (confirmWebhook Sample.client "https://merchant.example/hook")
  = [Request "https://api-merchant.payos.vn/confirm-webhook" "POST"
       (VObj [("webhookUrl", VStr "https://merchant.example/hook")])
       [("x-client-id", "client-id"); ("x-api-key", "api-key");
        ("Content-Type", "application/json")]].
Proof.
  refine (proj2 (proj2 (confirmWebhook_returns_its_url Sample.client
                          "https://merchant.example/hook")) _).
  discriminate.
Defined.

(* ================================================================== *)
(** * Further properties of the signers and of verifyWebhookData *)

(** X7.  Whatever it is given, [verifyWebhookData] returns a value only for a
    body that is neither [null] nor [undefined]: the value is the body's
    [data], it is truthy (never the [null] its documentation speaks of), and
    the body's [signature] is the signature recomputed from it; under a
    non-empty checksum key that signature is a string, the hex digest. *)
Theorem verifyWebhookData_is_sound (this : PayOS) (webhookBody d : value) :
  verifyWebhookData this webhookBody = Return d ->
  is_nullish webhookBody = false
  /\ d = get webhookBody "data"
  /\ truthy d = true
  /\ get webhookBody "signature"
     = of_signature (createSignatureFromObject d (checksumKey this))
  /\ (checksumKey this <> "" ->
      exists digest, get webhookBody "signature" = VStr digest /\ hex_digest digest).
Proof.
  unfold verifyWebhookData.
  destruct (is_nullish webhookBody); [discriminate|].
  destruct (truthy (get webhookBody "data")) eqn:Hdata; cbn [negb]; [|discriminate].
  destruct (strict_eq _ _) eqn:Hsig; cbn [negb]; [|discriminate].
  intros [= <-]. apply strict_eq_of_signature in Hsig.
  repeat split; try assumption.
  intro Hkey. rewrite Hsig. unfold createSignatureFromObject. rewrite Hdata.
  destruct (checksumKey this) as [|c key]; [congruence|].
  simpl. eexists. split; [reflexivity|apply createHmac_hex_digest].
Qed.

Lemma verifyWebhookData_is_sound_witness :
  is_nullish (VObj (Sample.webhook (VStr Sample.data_signature))) = false
  /\ Sample.data = get (VObj (Sample.webhook (VStr Sample.data_signature))) "data"
  /\ truthy Sample.data = true
  /\ get (VObj (Sample.webhook (VStr Sample.data_signature))) "signature"
     = of_signature (createSignatureFromObject Sample.data "secret")
  /\ ("secret" <> "" ->
      exists digest,
        get (VObj (Sample.webhook (VStr Sample.data_signature))) "signature" = VStr digest
        /\ hex_digest digest).
Proof.
  apply (verifyWebhookData_is_sound Sample.client
           (VObj (Sample.webhook (VStr Sample.data_signature))) Sample.data).
  vm_compute. reflexivity.
Defined.

Lemma string_app_assoc (a b c : string) : (a ++ b) ++ c = a ++ (b ++ c).
Proof. induction a; simpl; congruence. Qed.

Lemma verify_accepts_iff (this : PayOS) (data signature : value) :
  verifyWebhookData this (VObj [("data", data); ("signature", signature)]) = Return data
  <-> truthy data = true
      /\ signature = of_signature (createSignatureFromObject data (checksumKey this)).
Proof.
  rewrite verifyWebhookData_object.
  change (get_own "data" [("data", data); ("signature", signature)]) with data.
  change (get_own "signature" [("data", data); ("signature", signature)]) with signature.
  destruct (truthy data).
  - destruct (strict_eq _ _) eqn:Hsig.
    + apply strict_eq_of_signature in Hsig. tauto.
    + apply strict_eq_of_signature_false in Hsig.
      split; [discriminate|]. tauto.
  - split; [discriminate|]. intros [H _]. discriminate.
Qed.

Lemma sortObjectByKey_pair (k1 k2 : string) (v1 v2 : value) :
  string_lt k1 k2 -> is_index k1 = false -> is_index k2 = false ->
  k1 <> "__proto__" -> k2 <> "__proto__" ->
  sortObjectByKey (VObj [(k1, v1); (k2, v2)]) = VObj [(k1, v1); (k2, v2)].
Proof.
  intros Hlt H1 H2 Hp1 Hp2. unfold sortObjectByKey. cbn [keys map fst sort].
  unfold insert_sorted. unfold string_lt in Hlt. rewrite Hlt. cbn [fold_left].
  assert (Hne : (k2 =? k1)%string = false).
  { apply String.eqb_neq. intros ->. unfold String.ltb in Hlt.
    pose proof (String.compare_antisym k1 k1) as Ha.
    destruct (String.compare k1 k1); discriminate. }
  apply String.eqb_neq in Hp1, Hp2. unfold is_index in H1, H2.
  unfold assign. rewrite Hp1, Hp2. unfold define. cbn [lookup].
  destruct (array_index k1); [discriminate|]. cbn [app lookup]. rewrite Hne.
  destruct (array_index k2); [discriminate|]. cbn [app get].
  unfold get_own. cbn [lookup].
  now rewrite String.eqb_refl, Hne, String.eqb_refl.
Qed.

Lemma sortObjectByKey_single (k : string) (v : value) :
  is_index k = false -> k <> "__proto__" ->
  sortObjectByKey (VObj [(k, v)]) = VObj [(k, v)].
Proof.
  intros H1 Hp. unfold sortObjectByKey. cbn [keys map fst sort insert_sorted fold_left].
  apply String.eqb_neq in Hp. unfold is_index in H1.
  unfold assign. rewrite Hp. unfold define. cbn [lookup].
  destruct (array_index k); [discriminate|]. cbn [app get].
  unfold get_own. cbn [lookup]. now rewrite String.eqb_refl.
Qed.

(** X8.  The encoding escapes nothing, so it does not tell a value that
    contains [&name=...] from a second field.  For names [k1 < k2] (neither an
    array index nor [__proto__]) the one-field data [{k1: v1&k2=v2}] and the
    two-field data [{k1: v1, k2: v2}] have the same encoding and the same
    signature under every key, and [verifyWebhookData] accepts the one with
    a given signature exactly when it accepts the other. *)
Theorem encoding_merges_fields (this : PayOS) (k1 k2 v1 v2 : string) (signature : value) :
  string_lt k1 k2 -> is_index k1 = false -> is_index k2 = false ->
  k1 <> "__proto__" -> k2 <> "__proto__" ->
  let one := VObj [(k1, VStr (v1 ++ "&" ++ k2 ++ "=" ++ v2))] in
  let two := VObj [(k1, VStr v1); (k2, VStr v2)] in
  objectToQueryString (sortObjectByKey one) = objectToQueryString (sortObjectByKey two)
  /\ (forall key, createSignatureFromObject one key = createSignatureFromObject two key)
  /\ (verifyWebhookData this (VObj [("data", one); ("signature", signature)]) = Return one
      <-> verifyWebhookData this (VObj [("data", two); ("signature", signature)])
          = Return two).
Proof.
  intros Hlt H1 H2 Hp1 Hp2 one two.
  assert (Henc : objectToQueryString (sortObjectByKey one)
                 = objectToQueryString (sortObjectByKey two)).
  { unfold one, two. rewrite sortObjectByKey_single, sortObjectByKey_pair by assumption.
    unfold objectToQueryString. cbn [keys map fst get String.concat].
    unfold get_own. cbn [lookup].
    assert (Hne : (k2 =? k1)%string = false).
    { apply String.eqb_neq. intros ->. unfold string_lt, String.ltb in Hlt.
      pose proof (String.compare_antisym k1 k1) as Ha.
      destruct (String.compare k1 k1); discriminate. }
    rewrite !String.eqb_refl, Hne. cbn [to_string].
    now rewrite !string_app_assoc. }
  assert (Hsig : forall key,
             createSignatureFromObject one key = createSignatureFromObject two key).
  { intro key. unfold createSignatureFromObject. now rewrite Henc. }
  split; [exact Henc|]. split; [exact Hsig|].
  rewrite !verify_accepts_iff, Hsig. reflexivity.
Qed.

Lemma encoding_merges_fields_witness :
  createSignatureFromObject (VObj [("amount", VStr "1&status=PAID")]) "secret"
  = createSignatureFromObject (VObj [("amount", VStr "1"); ("status", VStr "PAID")])
      "secret".
Proof.
  refine (proj1 (proj2 (encoding_merges_fields Sample.client "amount" "status" "1" "PAID"
                          VNull _ _ _ _ _)) "secret");
    (reflexivity || discriminate).
Defined.

Section Canonical.
Local Open Scope list_scope.

Lemma fold_left_assign_ext_in (f g : string -> value) (ks : list string)
    (acc : list (string * value)) :
  (forall k, In k ks -> f k = g k) ->
  fold_left (fun acc key => assign acc key (f key)) ks acc
  = fold_left (fun acc key => assign acc key (g key)) ks acc.
Proof.
  revert acc. induction ks as [|a ks IH]; intros acc Hfg; simpl; [reflexivity|].
  rewrite (Hfg a) by now left. apply IH. intros k Hk. apply Hfg. now right.
Qed.

Lemma sortObjectByKey_keys_perm (m : list (string * value)) :
  NoDup (map fst m) -> ~ In "__proto__" (map fst m) ->
  Permutation (keys (sortObjectByKey (VObj m))) (map fst m).
Proof.
  intros Hnd Hproto. rewrite sortObjectByKey_keys by assumption.
  assert (Hidx : Forall (fun x => is_index x = true)
                        (filter is_index (sort (map fst m)))).
  { apply Forall_forall. intros x Hx. now apply filter_In in Hx. }
  destruct (fold_index_sorted _ [] Hidx (Forall_nil _) (SSorted_nil _))
    as (_ & _ & Hperm).
  rewrite Hperm. simpl. rewrite filter_partition_perm. apply sort_perm.
Qed.

Lemma sortObjectByKey_idempotent (m : list (string * value)) :
  NoDup (map fst m) -> ~ In "__proto__" (map fst m) ->
  sortObjectByKey (sortObjectByKey (VObj m)) = sortObjectByKey (VObj m).
Proof.
  intros Hnd Hproto.
  pose proof (sortObjectByKey_keys_perm m Hnd Hproto) as Hperm.
  set (r := sortObjectByKey (VObj m)) in *.
  change (sortObjectByKey r)
    with (VObj (fold_left (fun acc key => assign acc key (get r key))
                          (sort (keys r)) [])).
  rewrite (sort_of_perm _ _ Hperm).
  rewrite (fold_left_assign_ext_in (get r) (fun k => get_own k m)); [reflexivity|].
  intros k Hk.
  assert (Hin : In k (map fst m)).
  { eapply Permutation_in; [apply sort_perm|exact Hk]. }
  unfold r. rewrite sortObjectByKey_get; [reflexivity|assumption|].
  intros ->. contradiction.
Qed.

End Canonical.

(** X9.  [sortObjectByKey] is idempotent on a mapping with distinct keys, none
    of them [__proto__]: its result is already in the order it produces, and
    sorting it again changes nothing.  The signer therefore gives a mapping
    and its sorted form the same signature. *)
Theorem sortObjectByKey_fixed_point (m : list (string * value)) (key : string) :
  NoDup (map fst m) -> ~ In "__proto__" (map fst m) ->
  sortObjectByKey (sortObjectByKey (VObj m)) = sortObjectByKey (VObj m)
  /\ createSignatureFromObject (sortObjectByKey (VObj m)) key
     = createSignatureFromObject (VObj m) key.
Proof.
  intros Hnd Hproto. split; [now apply sortObjectByKey_idempotent|].
  unfold createSignatureFromObject.
  now rewrite sortObjectByKey_idempotent by assumption.
Qed.

Lemma sortObjectByKey_fixed_point_witness :
  sortObjectByKey (sortObjectByKey (VObj Sample.mapping))
  = sortObjectByKey (VObj Sample.mapping).
Proof.
  refine (proj1 (sortObjectByKey_fixed_point Sample.mapping "secret" _ _)).
  - repeat constructor; simpl; intuition discriminate.
  - simpl. intuition discriminate.
Defined.

(** X10.  The signature of [createSignatureFromObject] does not depend on the
    order in which the properties of the data were created: two mappings
    with the same pairs (distinct keys) get the same signature under every
    key, and [verifyWebhookData] accepts the one with a given signature
    exactly when it accepts the other. *)
Theorem signature_ignores_key_order
    (this : PayOS) (m m' : list (string * value)) (signature : value) :
  NoDup (map fst m) -> Permutation m m' ->
  (forall key, createSignatureFromObject (VObj m') key
               = createSignatureFromObject (VObj m) key)
  /\ (verifyWebhookData this (VObj [("data", VObj m'); ("signature", signature)])
        = Return (VObj m')
      <-> verifyWebhookData this (VObj [("data", VObj m); ("signature", signature)])
          = Return (VObj m)).
Proof.
  intros Hnd Hperm.
  assert (Hsig : forall key, createSignatureFromObject (VObj m') key
                             = createSignatureFromObject (VObj m) key).
  { intro key. unfold createSignatureFromObject.
    now rewrite (sortObjectByKey_perm m m' Hnd Hperm). }
  split; [exact Hsig|]. rewrite !verify_accepts_iff, Hsig. reflexivity.
Qed.

Lemma signature_ignores_key_order_witness :
  createSignatureFromObject (VObj Sample.shuffled) "secret"
  = createSignatureFromObject (VObj Sample.mapping) "secret".
Proof.
  refine (proj1 (signature_ignores_key_order Sample.client Sample.mapping
                   Sample.shuffled VNull _ _) "secret").
  - repeat constructor; simpl; intuition discriminate.
  - unfold Sample.mapping, Sample.shuffled. do 2 apply perm_skip. apply perm_swap.
Defined.

Lemma sort_requiredFields (ks : list string) :
  Permutation ks requiredFields -> sort ks = requiredFields.
Proof.
  intro H. rewrite (sort_of_perm _ _ H). reflexivity.
Qed.

Lemma fold_assign_requiredFields (f : string -> value) :
  fold_left (fun acc key => assign acc key (f key)) requiredFields []
  = [("amount", f "amount"); ("cancelUrl", f "cancelUrl");
     ("description", f "description"); ("orderCode", f "orderCode");
     ("returnUrl", f "returnUrl")].
Proof. reflexivity. Qed.

(** X11.  The fixed order of [createSignatureOfPaymentRequest] is the sorted
    order of its five names: on a payload that has exactly the five fields
    amount, cancelUrl, description, orderCode and returnUrl, created in any
    order, the two signers return the same signature. *)
Theorem signers_agree_on_five_fields (payload : list (string * value)) (key : string) :
  Permutation (map fst payload)
              ["amount"; "cancelUrl"; "description"; "orderCode"; "returnUrl"] ->
  createSignatureFromObject (VObj payload) key
  = createSignatureOfPaymentRequest (VObj payload) key.
Proof.
  intro Hperm.
  unfold createSignatureFromObject, createSignatureOfPaymentRequest. cbv zeta.
  destruct (negb (truthy (VObj payload)) || (String.length key =? 0)%nat);
    [reflexivity|].
  do 2 f_equal. unfold sortObjectByKey. cbn [keys].
  rewrite (sort_requiredFields _ Hperm), fold_assign_requiredFields.
  unfold paymentRequestQueryString, objectToQueryString. cbv zeta.
  change (get (VObj payload)) with (fun k => get_own k payload). cbv beta.
  generalize (get_own "amount" payload), (get_own "cancelUrl" payload),
    (get_own "description" payload), (get_own "orderCode" payload),
    (get_own "returnUrl" payload).
  intros a c d o r.
  cbn [keys map fst get String.concat]. unfold get_own. cbn.
  rewrite ?string_app_assoc. reflexivity.
Qed.

Lemma signers_agree_on_five_fields_witness :
  createSignatureFromObject Sample.paymentData "secret"
  = createSignatureOfPaymentRequest Sample.paymentData "secret".
Proof.
  refine (signers_agree_on_five_fields
            [("amount", VNum (of_Z 1000)); ("description", VStr "test");
             ("orderCode", VNum (of_Z 123)); ("returnUrl", VStr "https://x");
             ("cancelUrl", VStr "https://y")] "secret" _).
  simpl. apply perm_skip.
  symmetry. apply (Permutation_cons_append ["description"; "orderCode"; "returnUrl"]).
Defined.

(* ================================================================== *)
(** * The request of createPaymentLink *)

Lemma lookup_fold_define_other (f : string -> value) (ks : list string)
    (acc : list (string * value)) (k : string) :
  ~ In k ks ->
  lookup k (fold_left (fun acc key => define acc key (f key)) ks acc) = lookup k acc.
Proof.
  revert acc. induction ks as [|a ks IH]; intros acc Hk; [reflexivity|].
  cbn [fold_left]. rewrite IH by (intro; apply Hk; now right).
  rewrite lookup_define.
  destruct (String.eqb_spec k a) as [->|]; [|reflexivity].
  exfalso. apply Hk. now left.
Qed.

Lemma lookup_fold_define (f : string -> value) (ks : list string)
    (acc : list (string * value)) (k : string) :
  In k ks ->
  lookup k (fold_left (fun acc key => define acc key (f key)) ks acc) = Some (f k).
Proof.
  revert acc. induction ks as [|a ks IH]; intros acc Hin; [contradiction|].
  cbn [fold_left].
  destruct (in_dec string_dec k ks) as [Hlater|Hlast]; [now apply IH|].
  destruct Hin as [->|Hin]; [|contradiction].
  rewrite lookup_fold_define_other by assumption.
  now rewrite lookup_define, String.eqb_refl.
Qed.

(** The copy made by [{ ...object }] reads like the object. *)
Lemma lookup_spread (props : list (string * value)) (k : string) :
  lookup k (spread (VObj props)) = lookup k props.
Proof.
  unfold spread. cbn [keys].
  destruct (in_dec string_dec k (map fst props)) as [Hin|Hout].
  - rewrite lookup_fold_define by assumption. cbn [get]. unfold get_own.
    destruct (lookup k props) eqn:E; [reflexivity|].
    apply lookup_None in E. contradiction.
  - rewrite lookup_fold_define_other by assumption.
    symmetry. now apply lookup_None.
Qed.

(** X12.  For a payload with the five required fields truthy,
    [createPaymentLink] issues one POST to /v2/payment-requests whose body
    has every field of the payload with its value, and a [signature] field
    that is the signature of [createSignatureOfPaymentRequest] under the
    checksum key: a [signature] the caller put in the payload is replaced,
    and with an empty key the request is still issued, with signature
    [null]. *)
Theorem createPaymentLink_request_body (this : PayOS) (payload : list (string * value)) :
  (forall field, In field requiredFields -> truthy (get_own field payload) = true) ->
  exists body,
    requests (createPaymentLink this (VObj payload))
    = [Request "https://api-merchant.payos.vn/v2/payment-requests" "POST" (VObj body)
         [("content-type", "application/json"); ("X-client-id", clientId this);
          ("X-api-key", apiKey this)]]
    /\ lookup "signature" body
       = Some (of_signature
                 (createSignatureOfPaymentRequest (VObj payload) (checksumKey this)))
    /\ (forall k, k <> "signature" -> lookup k body = lookup k payload)
    /\ (checksumKey this = "" -> lookup "signature" body = Some VNull).
Proof.
  intro Hfields.
  exists (define (spread (VObj payload)) "signature"
            (of_signature
               (createSignatureOfPaymentRequest (VObj payload) (checksumKey this)))).
  split; [|split; [|split]].
  - unfold createPaymentLink.
    change (get (VObj payload)) with (fun k => get_own k payload). cbv beta.
    rewrite !Hfields by (simpl; tauto). reflexivity.
  - now rewrite lookup_define, String.eqb_refl.
  - intros k Hk. rewrite lookup_define. apply String.eqb_neq in Hk. rewrite Hk.
    apply lookup_spread.
  - intro Hkey. rewrite lookup_define, String.eqb_refl.
    unfold createSignatureOfPaymentRequest. now rewrite Hkey, orb_true_r.
Qed.

Lemma createPaymentLink_request_body_witness :
  exists body,
    requests (createPaymentLink Sample.client Sample.paymentData')
    = [Request "https://api-merchant.payos.vn/v2/payment-requests" "POST" (VObj body)
         [("content-type", "application/json"); ("X-client-id", "client-id");
          ("X-api-key", "api-key")]]
    /\ lookup "signature" body
       = Some (of_signature
                 (createSignatureOfPaymentRequest Sample.paymentData' "secret"))
    /\ (forall k, k <> "signature" ->
        lookup k body
        = lookup k [("buyerName", VStr "An"); ("returnUrl", VStr "https://x");
                    ("cancelUrl", VStr "https://y"); ("orderCode", VNum (of_Z 123));
                    ("expiredAt", VNum (of_Z 1700000000)); ("description", VStr "test");
                    ("amount", VNum (of_Z 1000))])
    /\ ("secret" = "" -> lookup "signature" body = Some VNull).
Proof.
  refine (createPaymentLink_request_body Sample.client
            [("buyerName", VStr "An"); ("returnUrl", VStr "https://x");
             ("cancelUrl", VStr "https://y"); ("orderCode", VNum (of_Z 123));
             ("expiredAt", VNum (of_Z 1700000000)); ("description", VStr "test");
             ("amount", VNum (of_Z 1000))] _).
  intros field Hin. simpl in Hin.
  destruct Hin as [<-|[<-|[<-|[<-|[<-|[]]]]]]; reflexivity.
Defined.

(* ================================================================== *)
(** * One verification rule, two tests of the code *)

Lemma checked_same_test test1 test2 key outcome :
  (forall status resp, outcome = FetchResolves status (JsonValue resp) ->
     test1 (get resp "code") = test2 (get resp "code")) ->
  checked test1 key outcome = checked test2 key outcome.
Proof.
  intro Hsame. destruct outcome as [reason|status [resp|reason]]; try reflexivity.
  destruct (is_nullish resp) eqn:Hnull.
  - now rewrite !checked_nullish.
  - rewrite !checked_response by assumption.
    now rewrite (Hsame status resp eq_refl).
Qed.

(** X13.  The three payment-link operations treat the answer to their request
    alike, except for the test of [code]: [getPaymentLinkInformation] and
    [cancelPaymentLink] settle alike on every answer, and
    [createPaymentLink] settles like them whenever the response's code is a
    string, or absent.  They part on a code that is not a string but is
    equal to "00" under [==]: on a response whose code is the number 0, with
    data and a matching signature, the first two return the data and
    [createPaymentLink] raises an [Error] with the response's [desc]. *)
Theorem code_test_strict_or_loose
    (this : PayOS) (paymentData orderId cancellationReason : value)
    (transport : request -> fetch_outcome) (outcome : fetch_outcome)
    (create get_info cancel : request) :
  requests (createPaymentLink this paymentData) = [create] ->
  requests (getPaymentLinkInformation this orderId) = [get_info] ->
  requests (cancelPaymentLink this orderId cancellationReason) = [cancel] ->
  transport create = outcome -> transport get_info = outcome ->
  transport cancel = outcome ->
  run (getPaymentLinkInformation this orderId) transport
  = run (cancelPaymentLink this orderId cancellationReason) transport
  /\ ((forall status resp, outcome = FetchResolves status (JsonValue resp) ->
         (exists code, get resp "code" = VStr code)
         \/ is_nullish (get resp "code") = true) ->
      run (createPaymentLink this paymentData) transport
      = run (getPaymentLinkInformation this orderId) transport)
  /\ (forall status resp,
        outcome = FetchResolves status (JsonValue resp) ->
        get resp "code" = VNum (of_Z 0) ->
        truthy (get resp "data") = true ->
        get resp "signature"
        = of_signature (createSignatureFromObject (get resp "data") (checksumKey this)) ->
        run (getPaymentLinkInformation this orderId) transport = Return (get resp "data")
        /\ run (createPaymentLink this paymentData) transport
           = Throw (VErr ClsError (relayed_message (get resp "desc")) [])).
Proof.
  intros Hc Hg Hx Tc Tg Tx.
  rewrite (createPaymentLink_checked _ _ _ Hc), (getPaymentLinkInformation_checked _ _ _ Hg),
    (cancelPaymentLink_checked _ _ _ _ Hx).
  cbn [run]. rewrite Tc, Tg, Tx.
  split; [reflexivity|]. split.
  - intro Htyped. apply checked_same_test. intros status resp Ho.
    destruct (Htyped status resp Ho) as [(code & ->)|Hnull]; [reflexivity|].
    now destruct (get resp "code").
  - intros status resp -> Hcode Hdata Hsig.
    assert (Hobj : is_nullish resp = false).
    { destruct resp; simpl in Hcode; try discriminate; reflexivity. }
    apply strict_eq_of_signature in Hsig.
    rewrite !checked_response by assumption.
    rewrite Hcode, Hsig, Hdata. split; reflexivity.
Qed.

Lemma code_test_strict_or_loose_witness :
  let resp := VObj [("code", VNum (of_Z 0)); ("desc", VStr "success");
                    ("data", Sample.data);
                    ("signature", VStr Sample.data_signature)] in
  run (getPaymentLinkInformation Sample.client (VNum (of_Z 42))) (Sample.answers resp)
  = Return Sample.data
  /\ run (createPaymentLink Sample.client Sample.paymentData) (Sample.answers resp)
     = Throw (VErr ClsError "success" []).
Proof.
  cbv zeta.
  refine (proj2 (proj2 (code_test_strict_or_loose Sample.client Sample.paymentData
            (VNum (of_Z 42)) VUndefined
            (Sample.answers
               (VObj [("code", VNum (of_Z 0)); ("desc", VStr "success");
                      ("data", Sample.data);
                      ("signature", VStr Sample.data_signature)]))
            _ _ _ _ _ _ _ _ _ _))
          200
          (VObj [("code", VNum (of_Z 0)); ("desc", VStr "success");
                 ("data", Sample.data);
                 ("signature", VStr Sample.data_signature)])
          _ _ _ _);
    try reflexivity; vm_compute; reflexivity.
Defined.
